(** * django-cloud-deploy: crash handling and the browser helper

    A shallow embedding of
    - [django_cloud_deploy/crash_handling/__init__.py]
      ([handle_crash], [_create_issue], [_create_issue_title],
      [_create_issue_body]) and
    - [django_cloud_deploy/utils/webbrowser.py] ([open_url]),
    followed by the properties the specification states about them.

    Python [str] values are modelled by [string]; a character of a
    [string] stands for a code point below 256.  The interpreter, the
    operating system and the third-party libraries the code calls are
    modelled by an explicit environment ([Ambient]) that is only read and a
    process state ([State]) that is threaded through every call. *)

From stdpp Require Import base option list gmap strings.
From Stdlib Require Import Ascii String Arith Lia.

Local Open Scope string_scope.
Local Open Scope list_scope.

(** ** Python string methods used by the code *)

Module PyStr.

(** [str.isspace] on one character (code points below 256):
    TAB..CR, FS..US, space, NEL and NBSP. *)
Definition isspace (c : ascii) : bool :=
  let n := nat_of_ascii c in
  (((9 <=? n) && (n <=? 13)) || ((28 <=? n) && (n <=? 32))
   || (n =? 133) || (n =? 160))%nat.

(** [str.lower] on one character: A..Z, and the Latin-1 capitals
    (192..222 without the multiplication sign 215). *)
Definition lower_char (c : ascii) : ascii :=
  let n := nat_of_ascii c in
  if (((65 <=? n) && (n <=? 90))
      || ((192 <=? n) && (n <=? 222) && negb (n =? 215)))%nat
  then ascii_of_nat (n + 32) else c.

Fixpoint lower (s : string) : string :=
  match s with
  | EmptyString => EmptyString
  | String c s' => String (lower_char c) (lower s')
  end.

Fixpoint lstrip (s : string) : string :=
  match s with
  | EmptyString => EmptyString
  | String c s' => if isspace c then lstrip s' else s
  end.

Fixpoint rstrip (s : string) : string :=
  match s with
  | EmptyString => EmptyString
  | String c s' =>
      match rstrip s' with
      | EmptyString => if isspace c then EmptyString else String c EmptyString
      | r => String c r
      end
  end.

Definition strip (s : string) : string := rstrip (lstrip s).

(** [s.replace(old, new)] for one-character [old] and [new]. *)
Fixpoint replace_char (old new : ascii) (s : string) : string :=
  match s with
  | EmptyString => EmptyString
  | String c s' =>
      String (if Ascii.eqb c old then new else c) (replace_char old new s')
  end.

Definition newline : ascii := ascii_of_nat 10.
Definition space : ascii := ascii_of_nat 32.
Definition dquote : string := String (ascii_of_nat 34) EmptyString.

(** Truthiness of a [str]: [not s] holds exactly for the empty string. *)
Definition is_empty (s : string) : bool :=
  match s with EmptyString => true | _ => false end.

End PyStr.

(** ** Exceptions *)

(** The exception classes that can arise in the modelled code. *)
Inductive exn : Type :=
| CalledProcessError      (* subprocess: the command exited non-zero *)
| FileNotFoundError       (* subprocess: no such executable on PATH *)
| OSError                 (* any other operating-system failure *)
| FileExistsError         (* mkstemp: no usable file name left *)
| TemplateSyntaxError     (* jinja2: the template source does not parse *)
| EOFError                (* console: no more input *)
| PermissionError         (* subprocess: the file found may not be executed *)
| UnicodeDecodeError      (* subprocess: the output is not text in the
                             locale's encoding *)
| UnicodeEncodeError      (* file object: the text cannot be encoded in
                             the locale's encoding *)
| UndefinedError.         (* jinja2: an operation on an undefined value
                             while the template renders *)

#[global] Instance exn_eq_dec : EqDecision exn.
Proof. solve_decision. Defined.

Inductive result (A : Type) : Type :=
| Ok (a : A)
| Raise (e : exn).
Arguments Ok {A} a.
Arguments Raise {A} e.

(** The exception object handed to [handle_crash]: what the code reads of
    it is [type(err).__name__] and [str(err)]. *)
Record Exception : Type := {
  type_name : string;
  str_of : string
}.

(** ** [_create_issue_title] *)

(** ['{}:{} during "{}"'.format(type(err).__name__, str(err), command)] *)
Definition _create_issue_title (err : Exception) (command : string) : string :=
  type_name err +:+ ":" +:+ str_of err +:+ " during " +:+ PyStr.dquote
    +:+ command +:+ PyStr.dquote.

(** ** The environment and the process state *)

(** What running a command line ends in: the command ran to its exit
    and its output decodes to [stdout]; there is no such executable; the
    file found may not be executed; the output does not decode. *)
Inductive proc_outcome : Type :=
| Exited (code : nat) (stdout : string)
| NoSuchExecutable
| NotExecutable
| UndecodableOutput.

(** A parsed Jinja2 template as the sequence of what it outputs:
    literal data, a plain [{{ name }}] output, or any other expression
    or block, given by what it prints in a rendering context or the
    exception it raises there (as [{{ nosuch.x }}] raises
    [UndefinedError]). *)
Inductive node : Type :=
| TData (text : string)
| TName (name : string)
| TExpr (eval : gmap string string -> result string).

Definition Template : Type := list node.

(** What an open file descriptor refers to.  [Buffered path text] is a
    regular file on which a file object holds [text] in its buffer:
    accepted by [write], not yet on disk. *)
Inductive fd_target : Type :=
| Tty
| DevNull
| RegularFile (path : string)
| Buffered (path : string) (text : string).

#[global] Instance fd_target_eq_dec : EqDecision fd_target.
Proof. solve_decision. Defined.

(** The effects of the code, in the order in which they happen. *)
Inductive event : Type :=
| EvSubprocess (argv : list string)
| EvMkstemp (path : string) (fd : nat)
| EvOpen (target : fd_target) (fd : nat)
| EvWrite (fd : nat) (data : string)
| EvClose (fd : nat)
| EvDup2 (fd fd2 : nat)
| EvTell (msg : string)
| EvAsk (prompt : string)
| EvBrowser (url : string).

#[global] Instance event_eq_dec : EqDecision event.
Proof. solve_decision. Defined.

(** Everything the code reads and does not change: the outcome of
    external commands, interpreter facts, the template asset loaded at
    import time ([_ISSUE_TEMPLATE], from [template/issue_template.txt],
    which is a packaged asset), and the library functions whose results
    the code passes on unchanged. *)
Record Ambient : Type := {
  run : list string -> proc_outcome;
  sys_version : string;
  platform_platform : string;
  traceback_format_exc : string;
  package_version : string;
  _ISSUE_TEMPLATE : string;
  (* jinja2.Environment().from_string; [None] is TemplateSyntaxError *)
  from_string : string -> option Template;
  (* urllib.parse.urlencode on the items of a dict *)
  urlencode : list (string * string) -> string;
  (* tempfile: directory and the random names it would try, in order *)
  gettempdir : string;
  candidate_names : list string;
  (* whether writing this text to a file fails *)
  write_fails : string -> bool;
  (* when it fails, whether the failure is that the text cannot be
     encoded (then [write] itself raises) rather than the device's *)
  encoding_failure : string -> bool;
  (* whether this text fits the buffer of a file object, so that it
     reaches the device only when the buffer is flushed *)
  fits_buffer : string -> bool
}.

(** What the code changes: the descriptor table of the process (local
    to the process, and gone with it), the files on disk (shared with
    every other process, and outliving this one), the lines still to be
    read from the console, and the record of effects. *)
Record State : Type := {
  fds : gmap nat fd_target;
  fs : gmap string string;
  console_in : list string;
  trace : list event
}.

Definition log (e : event) (st : State) : State :=
  {| fds := fds st; fs := fs st; console_in := console_in st;
     trace := trace st ++ [e] |}.

Definition set_fds (t : gmap nat fd_target) (st : State) : State :=
  {| fds := t; fs := fs st; console_in := console_in st; trace := trace st |}.

Definition set_fs (f : gmap string string) (st : State) : State :=
  {| fds := fds st; fs := f; console_in := console_in st; trace := trace st |}.

Definition set_console_in (l : list string) (st : State) : State :=
  {| fds := fds st; fs := fs st; console_in := l; trace := trace st |}.

(** ** The monad of the embedding: environment, state and exceptions *)

Definition M (A : Type) : Type := Ambient -> State -> result A * State.

Definition ret {A} (x : A) : M A := fun _ st => (Ok x, st).

Definition bind {A B} (m : M A) (k : A -> M B) : M B :=
  fun a st =>
    match m a st with
    | (Ok x, st') => k x a st'
    | (Raise e, st') => (Raise e, st')
    end.

Declare Scope py_scope.
Delimit Scope py_scope with py.
Notation "x <- m ;; k" := (bind m (fun x => k))
  (at level 100, m at next level, right associativity) : py_scope.
Notation "m ;;; k" := (bind m (fun _ => k))
  (at level 100, right associativity) : py_scope.
Local Open Scope py_scope.

(** [try: body / except cls: handler] *)
Definition try_except {A} (body : M A) (cls : exn) (handler : M A) : M A :=
  fun a st =>
    match body a st with
    | (Raise e, st') =>
        if decide (e = cls) then handler a st' else (Raise e, st')
    | r => r
    end.

(** [try: body / finally: cleanup], which is what leaving a [with] block
    does with the context manager's exit. *)
Definition try_finally {A} (body : M A) (cleanup : M unit) : M A :=
  fun a st =>
    match body a st with
    | (r, st') =>
        match cleanup a st' with
        | (Ok _, st'') => (r, st'')
        | (Raise e, st'') => (Raise e, st'')
        end
    end.

Definition ask_env {A} (f : Ambient -> A) : M A := fun a st => (Ok (f a), st).

(** A computation without effect: it returns or raises. *)
Definition lift {A} (r : result A) : M A := fun _ st => (r, st).

Definition emit (e : event) : M unit := fun _ st => (Ok tt, log e st).

(** ** Operating system and library calls *)

(** What text mode ([universal_newlines=True]) does to the decoded
    output: CR LF and a lone CR become LF. *)
Fixpoint universal_newlines (s : string) : string :=
  match s with
  | EmptyString => EmptyString
  | String c s' =>
      if (nat_of_ascii c =? 13)%nat then
        match s' with
        | String c2 s'' =>
            if (nat_of_ascii c2 =? 10)%nat
            then String PyStr.newline (universal_newlines s'')
            else String PyStr.newline (universal_newlines s')
        | EmptyString => String PyStr.newline EmptyString
        end
      else String c (universal_newlines s')
  end.

(** [subprocess.check_output(argv, universal_newlines=True)]: the
    standard output, in text mode, of a command that exits with status
    zero; [CalledProcessError] for another status; [FileNotFoundError]
    when there is no such executable, [PermissionError] when the file
    found may not be executed, [UnicodeDecodeError] when the output does
    not decode. *)
Definition check_output (argv : list string) : M string :=
  fun a st =>
    let st' := log (EvSubprocess argv) st in
    match run a argv with
    | Exited 0 out => (Ok (universal_newlines out), st')
    | Exited (S _) _ => (Raise CalledProcessError, st')
    | NoSuchExecutable => (Raise FileNotFoundError, st')
    | NotExecutable => (Raise PermissionError, st')
    | UndecodableOutput => (Raise UnicodeDecodeError, st')
    end.

(** The lowest descriptor number that is not open: what [open] returns. *)
Definition lowest_free (t : gmap nat fd_target) : nat :=
  default (size t)
    (List.find (fun i => bool_decide (t !! i = None)) (seq 0 (size t))).

(** [tempfile.mkstemp(prefix=prefix)]: creates an empty file under a
    name that does not exist yet and returns an open descriptor and the
    path. *)
Definition mkstemp_path (a : Ambient) (prefix name : string) : string :=
  gettempdir a +:+ "/" +:+ prefix +:+ name.

Definition mkstemp (prefix : string) : M (nat * string) :=
  fun a st =>
    match List.find
            (fun n => bool_decide (fs st !! mkstemp_path a prefix n = None))
            (candidate_names a) with
    | None => (Raise FileExistsError, st)
    | Some n =>
        let path := mkstemp_path a prefix n in
        let fd := lowest_free (fds st) in
        (Ok (fd, path),
         log (EvMkstemp path fd)
           (set_fds (<[fd := RegularFile path]> (fds st))
              (set_fs (<[path := EmptyString]> (fs st)) st)))
    end.

(** [os.fdopen(fd, 'wt')]: a file object on an open descriptor. *)
Definition fdopen (fd : nat) : M nat :=
  fun _ st =>
    match fds st !! fd with
    | Some _ => (Ok fd, st)
    | None => (Raise OSError, st)
    end.

(** What [f.write(data)] does with non-empty [data] on the regular
    file [p], with [pending] already in the buffer.  Text that fits the
    buffer stays there; otherwise it goes to the device now, and a
    failure of the device surfaces here. *)
Definition buffer_or_write (f : nat) (p pending data : string) : M unit :=
  fun a st =>
    let text := pending +:+ data in
    if fits_buffer a text then
      (Ok tt,
       log (EvWrite f data) (set_fds (<[f := Buffered p text]> (fds st)) st))
    else if write_fails a text then (Raise OSError, st)
    else
      (Ok tt,
       log (EvWrite f data)
         (set_fds (<[f := RegularFile p]> (fds st))
            (set_fs (<[p := default EmptyString (fs st !! p) +:+ text]>
                       (fs st)) st))).

(** [f.write(data)] on a text file object.  The text is encoded at
    once, so text that cannot be encoded raises [UnicodeEncodeError]
    here; what is encoded is buffered by the file object. *)
Definition file_write (f : nat) (data : string) : M unit :=
  fun a st =>
    match fds st !! f with
    | None => (Raise OSError, st)
    | Some tgt =>
        if PyStr.is_empty data then (Ok tt, log (EvWrite f data) st)
        else if write_fails a data && encoding_failure a data
        then (Raise UnicodeEncodeError, st)
        else
          match tgt with
          | RegularFile p => buffer_or_write f p EmptyString data a st
          | Buffered p pending => buffer_or_write f p pending data a st
          | _ => (Ok tt, log (EvWrite f data) st)
          end
    end.

(** [f.close()]: flushes the buffer and releases the descriptor.  When
    the flush fails the descriptor is released all the same and the
    failure is raised. *)
Definition file_close (f : nat) : M unit :=
  fun a st =>
    match fds st !! f with
    | None => (Raise OSError, st)
    | Some (Buffered p pending) =>
        let st' := log (EvClose f) (set_fds (delete f (fds st)) st) in
        if write_fails a pending then (Raise OSError, st')
        else
          (Ok tt,
           set_fs (<[p := default EmptyString (fs st !! p) +:+ pending]>
                     (fs st)) st')
    | Some _ => (Ok tt, log (EvClose f) (set_fds (delete f (fds st)) st))
    end.

(** [open(os.devnull, 'wb')].  The limit on the number of open
    descriptors is not modelled: a free descriptor is always found. *)
Definition open_devnull : M nat :=
  fun _ st =>
    let fd := lowest_free (fds st) in
    (Ok fd, log (EvOpen DevNull fd) (set_fds (<[fd := DevNull]> (fds st)) st)).

(** [os.dup2(fd, fd2)]: [fd2] now refers to what [fd] refers to. *)
Definition dup2 (fd fd2 : nat) : M unit :=
  fun _ st =>
    match fds st !! fd with
    | None => (Raise OSError, st)
    | Some tgt =>
        (Ok tt, log (EvDup2 fd fd2) (set_fds (<[fd2 := tgt]> (fds st)) st))
    end.

(** [webbrowser.open(url)]; its boolean result is not used. *)
Definition webbrowser_open (url : string) : M unit := emit (EvBrowser url).

(** Modelled from the spec: the console object ([io.IO] of
    [django_cloud_deploy.cli.io], which is not among the sources) has
    one method to display a message and one to read a line of input.
    [console.tell(msg)] displays [msg]. *)
Definition console_tell (msg : string) : M unit := emit (EvTell msg).

(** Modelled from the spec: [console.ask(prompt)] (see [console_tell])
    displays [prompt] and returns the next line of input; at the end of
    the input it raises [EOFError], as [input] does. *)
Definition console_ask (prompt : string) : M string :=
  fun _ st =>
    let st' := log (EvAsk prompt) st in
    match console_in st with
    | [] => (Raise EOFError, st')
    | l :: rest => (Ok l, set_console_in rest st')
    end.

(** What one node prints in a default [jinja2.Environment()]: no
    autoescaping, and a name that [options] does not define is the
    default [Undefined], which prints as the empty string. *)
Definition render_node (n : node) (options : gmap string string)
  : result string :=
  match n with
  | TData s => Ok s
  | TName x => Ok (default EmptyString (options !! x))
  | TExpr eval => eval options
  end.

(** [template.render(options)]: the outputs of the nodes in order, or
    the exception of the first node that raises. *)
Fixpoint render (t : Template) (options : gmap string string)
  : result string :=
  match t with
  | [] => Ok EmptyString
  | n :: t' =>
      match render_node n options with
      | Raise e => Raise e
      | Ok s =>
          match render t' options with
          | Raise e => Raise e
          | Ok r => Ok (s +:+ r)
          end
      end
  end.

(** [template_env.from_string(source)] *)
Definition env_from_string (source : string) : M Template :=
  fun a st =>
    match from_string a source with
    | Some t => (Ok t, st)
    | None => (Raise TemplateSyntaxError, st)
    end.

(** ** The crash handler *)

Definition not_installed : string := "Not installed or not on PATH".

Definition gcloud_argv : list string :=
  ["gcloud"; "info"; "--format=value(basic.version)"].
Definition docker_argv : list string := ["docker"; "--version"].
Definition cloud_sql_proxy_argv : list string :=
  ["cloud_sql_proxy"; "--version"].

(** One of the three blocks
    [try: v = subprocess.check_output(argv, ...).rstrip()]
    [except subprocess.CalledProcessError: v = 'Not installed or ...']. *)
Definition tool_version (argv : list string) : M string :=
  try_except
    (out <- check_output argv ;; ret (PyStr.rstrip out))
    CalledProcessError
    (ret not_installed).

Definition issue_options (a : Ambient) (command : string)
    (gcloud_version docker_version cloud_sql_proxy_version : string)
  : gmap string string :=
  list_to_map
    [ ("django_cloud_deploy_version", package_version a);
      ("command", command);
      ("gcloud_version", gcloud_version);
      ("docker_version", docker_version);
      ("cloud_sql_proxy_version", cloud_sql_proxy_version);
      ("python_version",
        PyStr.replace_char PyStr.newline PyStr.space (sys_version a));
      ("traceback", traceback_format_exc a);
      ("platform", platform_platform a) ].

Definition _create_issue_body (command : string) : M string :=
  gcloud_version <- tool_version gcloud_argv ;;
  docker_version <- tool_version docker_argv ;;
  cloud_sql_proxy_version <- tool_version cloud_sql_proxy_argv ;;
  tpl <- ask_env _ISSUE_TEMPLATE ;;
  template <- env_from_string tpl ;;
  options <- ask_env (fun a =>
    issue_options a command gcloud_version docker_version
      cloud_sql_proxy_version) ;;
  lift (render template options).

Definition request_url : string :=
  "https://github.com/GoogleCloudPlatform/django-cloud-deploy/issues/new?".

Definition issue_url (a : Ambient) (issue_title issue_content : string)
  : string :=
  request_url
    +:+ urlencode a [("title", issue_title); ("body", issue_content)].

Definition _create_issue (issue_title issue_content : string) : M unit :=
  url <- ask_env (fun a => issue_url a issue_title issue_content) ;;
  webbrowser_open url.

Definition nl : string := String PyStr.newline EmptyString.

Definition crash_message (command log_file_path : string) : string :=
  "Your " +:+ PyStr.dquote +:+ command +:+ PyStr.dquote
    +:+ " failed due to an internal error."
    +:+ nl +:+ nl
    +:+ "You can report this error by filing a bug on Github. If you agree,"
    +:+ nl
    +:+ "a browser window will open and an Github issue will be" +:+ nl
    +:+ "pre-populated with the details of this crash." +:+ nl
    +:+ "For more details, see: " +:+ log_file_path.

Definition ask_prompt : string := "Would you like to file a bug? [y/N]: ".

(** The body of the [while True] loop on the line just read:
    [Some ans] when one of the two [break]s is taken, with the value
    [ans] then has; [None] when the loop goes round again. *)
Definition gate_step (line : string) : option string :=
  let ans := PyStr.lower (PyStr.strip line) in
  if PyStr.is_empty ans then Some ans
  else if bool_decide (ans ∈ ["y"; "n"]) then Some ans
  else None.

(** The loop, on the lines the console has left.  Every round is one
    [console.ask], which reads one line, so the recursion is on those
    lines; reading past the last one raises [EOFError].  [gate_unfold]
    below shows that [gate] is the loop written with [console_ask]. *)
Fixpoint gate_loop (lines : list string) (tr : list event)
  : result string * list string * list event :=
  match lines with
  | [] => (Raise EOFError, [], tr ++ [EvAsk ask_prompt])
  | line :: rest =>
      match gate_step line with
      | Some ans => (Ok ans, rest, tr ++ [EvAsk ask_prompt])
      | None => gate_loop rest (tr ++ [EvAsk ask_prompt])
      end
  end.

Definition gate : M string :=
  fun _ st =>
    match gate_loop (console_in st) (trace st) with
    | (r, rest, tr) =>
        (r, {| fds := fds st; fs := fs st; console_in := rest; trace := tr |})
    end.

Definition handle_crash (err : Exception) (command : string) : M unit :=
  tmp <- mkstemp "django-deploy-bug-report-" ;;
  let '(log_fd, log_file_path) := tmp in
  issue_content <- _create_issue_body command ;;
  let issue_title := _create_issue_title err command in
  log_file <- fdopen log_fd ;;
  file_write log_file issue_content ;;;
  file_close log_file ;;;
  console_tell (crash_message command log_file_path) ;;;
  ans <- gate ;;
  if String.eqb (PyStr.lower ans) "y"
  then _create_issue issue_title issue_content
  else ret tt.

(** ** [utils/webbrowser.py] *)

(** [with open(os.devnull, 'wb') as f: os.dup2(f.fileno(), 2);
    webbrowser.open(url)] *)
Definition open_url (url : string) : M unit :=
  f <- open_devnull ;;
  try_finally (dup2 f 2 ;;; webbrowser_open url) (file_close f).

(** ** The renderer as the specification describes it

    The specification splits [_create_issue_body] into a collector that
    builds a diagnostic snapshot and a renderer that is a function of a
    crash context and that snapshot.  These definitions follow the
    specification's words; the theorems below compare them with the code. *)

Record CrashContext : Type := {
  ctx_exception : Exception;
  ctx_command : string;
  ctx_traceback : string
}.

Record DiagnosticSnapshot : Type := {
  snap_tool_version : string;
  snap_gcloud_version : string;
  snap_docker_version : string;
  snap_cloud_sql_proxy_version : string;
  snap_python_version : string;
  snap_platform : string
}.

(** The body is the rendered text, or the exception rendering ends in. *)
Record RenderedReport : Type := {
  report_title : string;
  report_body : result string
}.

Definition spec_render (template : Template) (ctx : CrashContext)
    (snap : DiagnosticSnapshot) : RenderedReport :=
  {| report_title :=
       type_name (ctx_exception ctx) +:+ ":" +:+ str_of (ctx_exception ctx)
         +:+ " during " +:+ PyStr.dquote +:+ ctx_command ctx +:+ PyStr.dquote;
     report_body :=
       render template
         (list_to_map
            [ ("django_cloud_deploy_version", snap_tool_version snap);
              ("command", ctx_command ctx);
              ("gcloud_version", snap_gcloud_version snap);
              ("docker_version", snap_docker_version snap);
              ("cloud_sql_proxy_version", snap_cloud_sql_proxy_version snap);
              ("python_version",
                PyStr.replace_char PyStr.newline PyStr.space
                  (snap_python_version snap));
              ("traceback", ctx_traceback ctx);
              ("platform", snap_platform snap) ]) |}.

(** ** Values of the effectful steps, for reasoning *)

(** The value [tool_version argv] ends in. *)
Definition tool_version_value (a : Ambient) (argv : list string)
  : result string :=
  match run a argv with
  | Exited 0 out => Ok (PyStr.rstrip (universal_newlines out))
  | Exited (S _) _ => Ok not_installed
  | NoSuchExecutable => Raise FileNotFoundError
  | NotExecutable => Raise PermissionError
  | UndecodableOutput => Raise UnicodeDecodeError
  end.

(** The snapshot the three queries and the interpreter facts amount to,
    or the exception of the first query that lets one through. *)
Definition collect (a : Ambient) : result DiagnosticSnapshot :=
  match tool_version_value a gcloud_argv with
  | Raise e => Raise e
  | Ok g =>
      match tool_version_value a docker_argv with
      | Raise e => Raise e
      | Ok d =>
          match tool_version_value a cloud_sql_proxy_argv with
          | Raise e => Raise e
          | Ok p =>
              Ok {| snap_tool_version := package_version a;
                    snap_gcloud_version := g;
                    snap_docker_version := d;
                    snap_cloud_sql_proxy_version := p;
                    snap_python_version := sys_version a;
                    snap_platform := platform_platform a |}
          end
      end
  end.

Definition crash_context (a : Ambient) (err : Exception) (command : string)
  : CrashContext :=
  {| ctx_exception := err; ctx_command := command;
     ctx_traceback := traceback_format_exc a |}.

(** The subprocess events of [_create_issue_body]: a query runs when the
    ones before it let no exception through. *)
Definition body_events (a : Ambient) : list event :=
  EvSubprocess gcloud_argv ::
  match tool_version_value a gcloud_argv with
  | Raise _ => []
  | Ok _ =>
      EvSubprocess docker_argv ::
      match tool_version_value a docker_argv with
      | Raise _ => []
      | Ok _ => [EvSubprocess cloud_sql_proxy_argv]
      end
  end.

(** The value [_create_issue_body command] ends in. *)
Definition body_value (a : Ambient) (command : string) : result string :=
  match collect a with
  | Raise e => Raise e
  | Ok snap =>
      match from_string a (_ISSUE_TEMPLATE a) with
      | None => Raise TemplateSyntaxError
      | Some t =>
          report_body
            (spec_render t
               (crash_context a {| type_name := EmptyString;
                                   str_of := EmptyString |} command)
               snap)
      end
  end.

Definition extend (evs : list event) (st : State) : State :=
  {| fds := fds st; fs := fs st; console_in := console_in st;
     trace := trace st ++ evs |}.

(** The user's decision: [Some true] to submit, [Some false] not to,
    [None] when the input ends before a decision. *)
Definition decision (lines : list string) : option bool :=
  match gate_loop lines [] with
  | (Ok ans, _, _) => Some (String.eqb (PyStr.lower ans) "y")
  | (Raise _, _, _) => None
  end.

(** How often the gate prompts on these lines. *)
Definition prompts (lines : list string) : nat :=
  List.length (gate_loop lines []).2.

Definition is_browser (e : event) : bool :=
  match e with EvBrowser _ => true | _ => false end.

Definition is_tell (e : event) : bool :=
  match e with EvTell _ => true | _ => false end.

Definition is_ask (e : event) : bool :=
  match e with EvAsk _ => true | _ => false end.

(** ** Concrete environments for the examples *)

(** A template reader for the examples: literal text and [{{ name }}]
    outputs, with the name trimmed; a [{{] that is never closed does
    not parse. *)
Fixpoint read_placeholders (in_expr : bool) (acc s : string)
  : option Template :=
  match s with
  | EmptyString => if in_expr then None else Some [TData acc]
  | String c s' =>
      if in_expr then
        match c, s' with
        | "}"%char, String "}"%char s'' =>
            option_map (cons (TName (PyStr.strip acc)))
              (read_placeholders false EmptyString s'')
        | _, _ =>
            read_placeholders true (acc +:+ String c EmptyString) s'
        end
      else
        match c, s' with
        | "{"%char, String "{"%char s'' =>
            option_map (cons (TData acc))
              (read_placeholders true EmptyString s'')
        | _, _ =>
            read_placeholders false (acc +:+ String c EmptyString) s'
        end
  end.

(** A query-string builder for the examples: [k=v] joined by [&],
    without escaping. *)
Fixpoint join_params (items : list (string * string)) : string :=
  match items with
  | [] => EmptyString
  | [(k, v)] => k +:+ "=" +:+ v
  | (k, v) :: rest => k +:+ "=" +:+ v +:+ "&" +:+ join_params rest
  end.

Definition example_ambient (r : list string -> proc_outcome)
    (template : string) (wf : string -> bool) : Ambient :=
  {| run := r;
     sys_version := "3.7.2 (default)" +:+ nl +:+ "[GCC 8.2.0]";
     platform_platform := "Linux-4.19-x86_64";
     traceback_format_exc :=
       "Traceback (most recent call last):" +:+ nl
         +:+ "ValueError: bad config" +:+ nl;
     package_version := "0.2.1";
     _ISSUE_TEMPLATE := template;
     from_string := read_placeholders false EmptyString;
     urlencode := join_params;
     gettempdir := "/tmp";
     candidate_names := ["a1b2c3"; "d4e5f6"];
     write_fails := wf;
     encoding_failure := fun _ => false;
     fits_buffer := fun s => (N.of_nat (String.length s) <=? 8192)%N |}.

(** All three tools installed and answering. *)
Definition tools_present (argv : list string) : proc_outcome :=
  match argv with
  | "gcloud" :: _ => Exited 0 ("231.0.0" +:+ nl)
  | "docker" :: _ => Exited 0 ("Docker version 18.09.1" +:+ nl)
  | _ => Exited 0 ("Cloud SQL Proxy: version 1.13" +:+ nl)
  end.

(** [gcloud] is not on PATH; the other two are installed. *)
Definition gcloud_missing (argv : list string) : proc_outcome :=
  match argv with
  | "gcloud" :: _ => NoSuchExecutable
  | _ => tools_present argv
  end.

(** All three tools are found and exit with status 1. *)
Definition tools_failing (argv : list string) : proc_outcome :=
  Exited 1 EmptyString.

Definition example_template : string :=
  "Version: {{ django_cloud_deploy_version }}" +:+ nl
    +:+ "Command: {{ command }}" +:+ nl
    +:+ "gcloud: {{ gcloud_version }}" +:+ nl
    +:+ "docker: {{ docker_version }}" +:+ nl
    +:+ "proxy: {{ cloud_sql_proxy_version }}" +:+ nl
    +:+ "Python: {{ python_version }}" +:+ nl
    +:+ "Platform: {{ platform }}" +:+ nl
    +:+ "{{ traceback }}".

Definition never : string -> bool := fun _ => false.

(** A process with the three standard descriptors on a terminal, an
    empty disk, and the given console input. *)
Definition example_state (lines : list string) : State :=
  {| fds := <[0 := Tty]> (<[1 := Tty]> (<[2 := Tty]> ∅));
     fs := ∅;
     console_in := lines;
     trace := [] |}.

Definition example_err : Exception :=
  {| type_name := "ValueError"; str_of := "bad config" |}.

(** ** A summary of the crash handler, for reasoning

    The outcome and final state of [handle_crash] written out path by
    path; [handle_crash_run] below proves that the handler computes
    exactly this. *)

Definition report_prefix : string := "django-deploy-bug-report-".

(** Where a failure to write the report surfaces. *)
Inductive failure_point : Type :=
| InWrite
| InClose.

(** Whether and where writing [body] to a fresh file object fails:
    nowhere for an empty body or text that can be written; in [write]
    for text that cannot be encoded and for text beyond the buffer that
    the device refuses; in [close] for buffered text that the device
    refuses. *)
Definition write_failure (a : Ambient) (body : string)
  : option failure_point :=
  if PyStr.is_empty body || negb (write_fails a body) then None
  else if encoding_failure a body then Some InWrite
  else if fits_buffer a body then Some InClose
  else Some InWrite.

(** The exception a failure in [write] raises. *)
Definition write_exception (a : Ambient) (body : string) : exn :=
  if encoding_failure a body then UnicodeEncodeError else OSError.

Definition submit_events (a : Ambient) (err : Exception)
    (command body : string) (gr : result string) : list event :=
  match gr with
  | Ok ans =>
      if String.eqb (PyStr.lower ans) "y"
      then [EvBrowser (issue_url a (_create_issue_title err command) body)]
      else []
  | Raise _ => []
  end.

Definition handle_crash_summary (err : Exception) (command : string)
    (a : Ambient) (st : State) : result unit * State :=
  match List.find
          (fun n =>
             bool_decide (fs st !! mkstemp_path a report_prefix n = None))
          (candidate_names a) with
  | None => (Raise FileExistsError, st)
  | Some n =>
      let path := mkstemp_path a report_prefix n in
      let fd := lowest_free (fds st) in
      let opened :=
        {| fds := <[fd := RegularFile path]> (fds st);
           fs := <[path := EmptyString]> (fs st);
           console_in := console_in st;
           trace := trace st ++ EvMkstemp path fd :: body_events a |} in
      match body_value a command with
      | Raise e => (Raise e, opened)
      | Ok body =>
          match write_failure a body with
          | Some InWrite => (Raise (write_exception a body), opened)
          | Some InClose =>
              (Raise OSError,
               {| fds := fds st;
                  fs := <[path := EmptyString]> (fs st);
                  console_in := console_in st;
                  trace :=
                    trace st ++ EvMkstemp path fd :: body_events a
                      ++ [EvWrite fd body; EvClose fd] |})
          | None =>
              match gate_loop (console_in st) [] with
              | (gr, rest, asks) =>
                  (match gr with Ok _ => Ok tt | Raise e => Raise e end,
                   {| fds := fds st;
                      fs := <[path := body]> (fs st);
                      console_in := rest;
                      trace :=
                        trace st ++ EvMkstemp path fd :: body_events a
                          ++ [EvWrite fd body; EvClose fd;
                              EvTell (crash_message command path)]
                          ++ asks ++ submit_events a err command body gr |})
              end
          end
      end
  end.

(** ** Predicates used in the statements *)

(** A line as the gate looks at it: [ans.strip().lower()]. *)
Definition normalised (line : string) : string :=
  PyStr.lower (PyStr.strip line).

(** The normalised answers that end the gate's loop. *)
Definition valid_answers : list string := [EmptyString; "y"; "n"].

Definition no_browser (evs : list event) : Prop :=
  Forall (fun e => is_browser e = false) evs.

Definition only_asks (evs : list event) : Prop :=
  Forall (fun e => e = EvAsk ask_prompt) evs.

(** Nothing is shown to the user and nothing is asked. *)
Definition no_console (evs : list event) : Prop :=
  Forall (fun e => is_tell e = false /\ is_ask e = false) evs.

Definition tool_argvs : list (list string) :=
  [gcloud_argv; docker_argv; cloud_sql_proxy_argv].



(** [sub] occurs in [s]. *)
Definition contains (sub s : string) : Prop :=
  exists s1 s2, s = s1 +:+ sub +:+ s2.

(** ** Further predicates *)

Definition is_subprocess (e : event) : bool :=
  match e with EvSubprocess _ => true | _ => false end.

(** Every character of the string is whitespace ([str.isspace] on a
    non-empty string), or the string is empty. *)
Fixpoint all_space (s : string) : bool :=
  match s with
  | EmptyString => true
  | String c s' => PyStr.isspace c && all_space s'
  end.

(** The field one of the three [try]/[except] blocks assigns when the
    command has run to its exit: for status zero the output, in text
    mode, without trailing whitespace; the fallback string for another
    status. *)
Definition version_field (code : nat) (stdout : string) : string :=
  match code with
  | 0 => PyStr.rstrip (universal_newlines stdout)
  | S _ => not_installed
  end.

(** ** The end-to-end test's readiness check *)

(** The line boundaries of [str.splitlines] among the code points below
    256: LF, VT, FF, CR, FS, GS, RS and NEL. *)
Definition is_linebreak (c : ascii) : bool :=
  let n := nat_of_ascii c in
  (((10 <=? n) && (n <=? 13)) || ((28 <=? n) && (n <=? 30))
   || (n =? 133))%nat.

(** [str.splitlines()]: [cur] is the line read so far.  CR LF is one
    boundary, and there is no empty last line. *)
Fixpoint splitlines_from (cur s : string) : list string :=
  match s with
  | EmptyString => if PyStr.is_empty cur then [] else [cur]
  | String c s' =>
      if is_linebreak c then
        match s' with
        | String c2 s'' =>
            if ((nat_of_ascii c =? 13) && (nat_of_ascii c2 =? 10))%nat
            then cur :: splitlines_from EmptyString s''
            else cur :: splitlines_from EmptyString s'
        | EmptyString => [cur]
        end
      else splitlines_from (cur +:+ String c EmptyString) s'
  end.

Definition splitlines (s : string) : list string :=
  splitlines_from EmptyString s.

(** How one try of [_wait_for_appengine_update_ready] ends. *)
Inductive try_outcome : Type :=
| Returns (b : bool)
| RaisesValueError
| RaisesFrom (e : exn).

Definition versions_list_argv (project_id : string) : list string :=
  ["gcloud"; "--project=" +:+ project_id; "app"; "versions"; "list";
   "--sort-by=LAST_DEPLOYED"; "--format=csv[no-heading](TRAFFIC_SPLIT)"].

(** The body of [_wait_for_appengine_update_ready] in
    [tests/e2e/gae_cloudify_test.py], one try of it (the [backoff]
    decorator around it, with its waits, is not modelled).
    [float_is_one s] stands for [float(s) == 1.0], [None] when [float(s)]
    raises [ValueError]. *)
Definition _wait_for_appengine_update_ready
    (float_is_one : string -> option bool) (project_id : string)
    (a : Ambient) (st : State) : try_outcome * State :=
  match check_output (versions_list_argv project_id) a st with
  | (Raise e, st') => (RaisesFrom e, st')
  | (Ok out, st') =>
      let result := splitlines (PyStr.rstrip out) in
      if (List.length result <=? 1)%nat then (Returns false, st')
      else
        match float_is_one (List.last result EmptyString) with
        | Some b => (Returns b, st')
        | None => (RaisesValueError, st')
        end
  end.

(** No character of the string is a line boundary. *)
Fixpoint no_linebreak (s : string) : bool :=
  match s with
  | EmptyString => true
  | String c s' => negb (is_linebreak c) && no_linebreak s'
  end.

(** * Properties *)

(** ** Descriptors and the effect record *)

Lemma lowest_free_None (t : gmap nat fd_target) : t !! lowest_free t = None.
Proof.
  unfold lowest_free.
  destruct (List.find _ _) as [i|] eqn:Hfind; simpl.
  - apply List.find_some in Hfind as [_ Hi].
    by apply bool_decide_eq_true in Hi.
  - destruct (t !! size t) eqn:Hsz; [|done].
    exfalso.
    assert (Hsub : (set_seq 0 (S (size t)) : gset nat) ⊆ dom t).
    { intros i Hi. apply elem_of_set_seq in Hi as [_ Hi].
      apply elem_of_dom.
      destruct (decide (i = size t)) as [->|Hne]; [by eexists|].
      destruct (t !! i) eqn:Hti; [by eexists|].
      pose proof (List.find_none _ _ Hfind i) as Hnone.
      rewrite bool_decide_eq_false in Hnone.
      exfalso. apply Hnone; [|done].
      apply in_seq. lia. }
    apply subseteq_size in Hsub.
    rewrite size_set_seq, size_dom in Hsub. lia.
Qed.

Lemma extend_nil st : extend [] st = st.
Proof. destruct st. unfold extend. simpl. by rewrite app_nil_r. Qed.

Lemma extend_extend evs1 evs2 st :
  extend evs2 (extend evs1 st) = extend (evs1 ++ evs2) st.
Proof. unfold extend. simpl. by rewrite app_assoc. Qed.

Lemma log_extend e st : log e st = extend [e] st.
Proof. reflexivity. Qed.

Lemma tool_version_run argv a st :
  tool_version argv a st = (tool_version_value a argv, extend [EvSubprocess argv] st).
Proof.
  unfold tool_version, try_except, bind, check_output, tool_version_value, ret.
  destruct (run a argv) as [[|code] out| | |]; reflexivity.
Qed.

Lemma body_value_options a command :
  body_value a command =
  match collect a with
  | Raise e => Raise e
  | Ok snap =>
      match from_string a (_ISSUE_TEMPLATE a) with
      | None => Raise TemplateSyntaxError
      | Some t =>
          render t (issue_options a command (snap_gcloud_version snap)
                      (snap_docker_version snap)
                      (snap_cloud_sql_proxy_version snap))
      end
  end.
Proof.
  unfold body_value. destruct (collect a) as [snap|e] eqn:Hc; [|done].
  destruct (from_string a _); [|done].
  unfold collect in Hc.
  repeat (destruct (tool_version_value _ _); [|discriminate]).
  injection Hc as <-. reflexivity.
Qed.

Lemma body_run command a st :
  _create_issue_body command a st
  = (body_value a command, extend (body_events a) st).
Proof.
  rewrite body_value_options.
  unfold _create_issue_body, bind. rewrite tool_version_run.
  unfold collect, body_events.
  destruct (tool_version_value a gcloud_argv) as [g|e]; [|done].
  rewrite tool_version_run.
  destruct (tool_version_value a docker_argv) as [d|e];
    [|by rewrite extend_extend].
  rewrite tool_version_run.
  destruct (tool_version_value a cloud_sql_proxy_argv) as [p|e];
    [|by rewrite !extend_extend].
  unfold ask_env, env_from_string, lift. simpl.
  destruct (from_string a _); by rewrite !extend_extend.
Qed.

(** ** The interactive gate *)

Lemma gate_loop_app lines tr :
  gate_loop lines tr =
  ((gate_loop lines []).1.1, (gate_loop lines []).1.2,
   tr ++ (gate_loop lines []).2).
Proof.
  revert tr. induction lines as [|line rest IH]; intros tr; simpl.
  - reflexivity.
  - destruct (gate_step line); [reflexivity|].
    rewrite (IH (tr ++ _)), (IH [EvAsk ask_prompt]). simpl.
    by rewrite <- app_assoc.
Qed.

(** [gate] satisfies the equation of the source's loop: ask once, then
    either break with the answer or go round again. *)
Lemma gate_unfold a st :
  gate a st
  = (line <- console_ask ask_prompt ;;
     match gate_step line with
     | Some ans => ret ans
     | None => gate
     end) a st.
Proof.
  unfold gate, bind, console_ask, set_console_in, log, ret.
  destruct (console_in st) as [|line rest]; cbn [gate_loop]; [reflexivity|].
  cbn [fds fs console_in trace].
  destruct (gate_step line); [reflexivity|].
  cbn [fds fs console_in trace]. reflexivity.
Qed.

Lemma gate_step_Some line ans :
  gate_step line = Some ans <->
  ans = PyStr.lower (PyStr.strip line)
  /\ (ans = EmptyString \/ ans = "y" \/ ans = "n").
Proof.
  unfold gate_step.
  destruct (PyStr.is_empty _) eqn:He.
  - destruct (PyStr.lower _); [|discriminate].
    split; [intros [= <-]; auto | intros [-> _]; reflexivity].
  - case_bool_decide as Hin; rewrite !elem_of_cons, elem_of_nil in Hin.
    + split; [intros [= <-] | intros [-> _]; reflexivity].
      split; [reflexivity | tauto].
    + split; [discriminate|]. intros [-> [H|H]].
      * rewrite H in He. discriminate.
      * tauto.
Qed.

Lemma gate_loop_shape lines r rest asks :
  gate_loop lines [] = (r, rest, asks) ->
  exists pre,
    Forall (fun l => gate_step l = None) pre
    /\ asks = repeat (EvAsk ask_prompt) (S (List.length pre))
    /\ match r with
       | Ok ans =>
           exists line, lines = pre ++ line :: rest
                        /\ gate_step line = Some ans
       | Raise e => e = EOFError /\ lines = pre /\ rest = []
       end.
Proof.
  revert r rest asks.
  induction lines as [|line tl IH]; intros r rest asks; simpl.
  - intros [= <- <- <-]. exists []. by repeat split.
  - destruct (gate_step line) as [ans|] eqn:Hstep.
    + intros [= <- <- <-]. exists []. repeat split; [done|]. by exists line.
    + rewrite gate_loop_app.
      destruct (gate_loop tl []) as [[r0 rest0] asks0] eqn:Hloop. simpl.
      intros [= <- <- <-].
      destruct (IH _ _ _ eq_refl) as (pre & Hpre & -> & Hr).
      exists (line :: pre). split; [by constructor|]. split; [done|].
      destruct r0 as [ans|e].
      * destruct Hr as (l & -> & Hl). by exists l.
      * destruct Hr as (-> & -> & ->). done.
Qed.

Lemma gate_step_valid line :
  normalised line ∈ valid_answers -> gate_step line = Some (normalised line).
Proof.
  intros Hin. apply gate_step_Some. split; [done|].
  unfold valid_answers in Hin.
  rewrite !elem_of_cons, elem_of_nil in Hin. tauto.
Qed.

Lemma gate_step_invalid line :
  normalised line ∉ valid_answers -> gate_step line = None.
Proof.
  intros Hin. destruct (gate_step line) as [ans|] eqn:Hs; [|done].
  apply gate_step_Some in Hs as [-> Hs]. exfalso. apply Hin.
  unfold valid_answers, normalised.
  rewrite !elem_of_cons, elem_of_nil. tauto.
Qed.

Lemma gate_loop_reprompts pre line rest :
  Forall (fun l => gate_step l = None) pre ->
  gate_step line = Some (normalised line) ->
  gate_loop (pre ++ line :: rest) []
  = (Ok (normalised line), rest,
     repeat (EvAsk ask_prompt) (S (List.length pre))).
Proof.
  intros Hpre Hline. induction Hpre as [|l pre Hl _ IH]; simpl.
  - by rewrite Hline.
  - rewrite Hl, gate_loop_app, IH. reflexivity.
Qed.

Lemma gate_asks lines r rest asks :
  gate_loop lines [] = (r, rest, asks) ->
  exists n, asks = repeat (EvAsk ask_prompt) (S n).
Proof.
  intros H. apply gate_loop_shape in H as (pre & _ & -> & _). eauto.
Qed.

Lemma repeat_ask_no_browser n : no_browser (repeat (EvAsk ask_prompt) n).
Proof. induction n; simpl; by constructor. Qed.

Lemma gate_only_asks lines r rest asks :
  gate_loop lines [] = (r, rest, asks) -> only_asks asks /\ asks <> [].
Proof.
  intros H. apply gate_asks in H as [k ->]. split; [|done].
  unfold only_asks. apply Forall_forall. intros e He.
  apply list_elem_of_In in He. by apply repeat_spec in He.
Qed.

(** ** The handler computes its summary *)

Lemma body_events_no_browser a : no_browser (body_events a).
Proof.
  unfold body_events, no_browser.
  repeat (destruct (tool_version_value _ _)); repeat constructor.
Qed.

Lemma body_events_no_console a : no_console (body_events a).
Proof.
  unfold body_events, no_console.
  repeat (destruct (tool_version_value _ _)); repeat constructor.
Qed.

Lemma body_result command a st :
  (_create_issue_body command a st).1 = body_value a command.
Proof. by rewrite body_run. Qed.

Lemma mkstemp_Ok a st fd path :
  (mkstemp report_prefix a st).1 = Ok (fd, path) ->
  exists n,
    List.find
      (fun n => bool_decide (fs st !! mkstemp_path a report_prefix n = None))
      (candidate_names a) = Some n
    /\ path = mkstemp_path a report_prefix n
    /\ fd = lowest_free (fds st)
    /\ fs st !! path = None.
Proof.
  unfold mkstemp. destruct (List.find _ _) as [n|] eqn:Hfind; [|discriminate].
  simpl. intros [= <- <-]. exists n. repeat split.
  apply List.find_some in Hfind as [_ H]. by apply bool_decide_eq_true in H.
Qed.

Lemma append_empty_l s : EmptyString +:+ s = s.
Proof. reflexivity. Qed.

(** The steps of [handle_crash] after the report is on disk and closed. *)
Ltac finish_gate st :=
  rewrite gate_loop_app;
  destruct (gate_loop (console_in st) []) as [[gr rest] asks];
  cbn [fst snd fds fs console_in trace];
  unfold submit_events;
  (destruct gr as [ans|e]; [destruct (String.eqb _ _)|]);
  unfold _create_issue, bind, ask_env, webbrowser_open, emit, ret, log;
  cbn [fds fs console_in trace String.append];
  rewrite ?app_nil_r, <- ?app_assoc; reflexivity.

Ltac step_state :=
  cbn [orb andb negb fds fs console_in trace default id from_option];
  rewrite ?lookup_insert_eq, ?append_empty_l;
  cbn [orb andb negb fds fs console_in trace default id from_option].

Lemma handle_crash_run err command a st :
  handle_crash err command a st = handle_crash_summary err command a st.
Proof.
  unfold handle_crash, handle_crash_summary, bind at 1, mkstemp.
  fold report_prefix.
  destruct (List.find _ _) as [n|]; [|reflexivity].
  set (path := mkstemp_path a report_prefix n).
  set (fd := lowest_free (fds st)).
  pose proof (lowest_free_None (fds st)) as Hfree. fold fd in Hfree.
  unfold bind at 1. rewrite body_run.
  generalize (body_events a); intros be.
  destruct (body_value a command) as [body|e].
  2:{ unfold extend, log, set_fds, set_fs. simpl.
      rewrite <- app_assoc. reflexivity. }
  unfold write_failure, write_exception.
  unfold bind, fdopen, file_write, buffer_or_write, file_close, console_tell,
    emit, gate, extend, log, set_fds, set_fs.
  step_state.
  destruct (PyStr.is_empty body) eqn:Hemp.
  { destruct body; [|discriminate]. repeat step_state.
    rewrite delete_insert_eq, (delete_id (fds st)) by done.
    finish_gate st. }
  destruct (write_fails a body) eqn:Hwf; step_state.
  - destruct (encoding_failure a body); step_state.
    { rewrite <- app_assoc. reflexivity. }
    destruct (fits_buffer a body); repeat step_state.
    + rewrite Hwf, insert_insert_eq, delete_insert_eq, (delete_id (fds st))
        by done.
      rewrite <- !app_assoc. reflexivity.
    + rewrite <- app_assoc. reflexivity.
  - destruct (fits_buffer a body); repeat step_state; rewrite ?Hwf;
      repeat step_state;
      rewrite ?insert_insert_eq, delete_insert_eq, (delete_id (fds st))
        by done;
      finish_gate st.
Qed.

(** ** The three tool queries *)



Lemma tool_version_value_Raise a argv e :
  tool_version_value a argv = Raise e ->
  e = FileNotFoundError \/ e = PermissionError \/ e = UnicodeDecodeError.
Proof.
  unfold tool_version_value.
  destruct (run a argv) as [[|code] out| | |]; intros [= <-]; auto.
Qed.

Lemma collect_Raise a e :
  collect a = Raise e ->
  e = FileNotFoundError \/ e = PermissionError \/ e = UnicodeDecodeError.
Proof.
  unfold collect.
  destruct (tool_version_value a gcloud_argv) eqn:Hg;
    [|intros [= <-]; by eapply tool_version_value_Raise].
  destruct (tool_version_value a docker_argv) eqn:Hd;
    [|intros [= <-]; by eapply tool_version_value_Raise].
  destruct (tool_version_value a cloud_sql_proxy_argv) eqn:Hp;
    [discriminate|intros [= <-]; by eapply tool_version_value_Raise].
Qed.

(** ** Claims *)

(** C1.  The specification asks that a tool query that fails in any way,
    by a non-zero exit or by a missing executable, yields the field
    ['Not installed or not on PATH'] and never aborts the collection.
    The code catches [CalledProcessError] only.  Evaluated where
    [gcloud] is not on PATH: the query raises [FileNotFoundError], which
    leaves [_create_issue_body] and [handle_crash] uncaught, and the user
    is told nothing.  A tool that is found and exits with status 1 does
    give the sentinel. *)
Theorem missing_tool_aborts_collection :
  let a := example_ambient gcloud_missing example_template never in
  let st := example_state ["y"] in
  run a gcloud_argv = NoSuchExecutable
  /\ (tool_version gcloud_argv a st).1 = Raise FileNotFoundError
  /\ (_create_issue_body "deploy new" a st).1 = Raise FileNotFoundError
  /\ (handle_crash example_err "deploy new" a st).1 = Raise FileNotFoundError
  /\ Forall (fun e => is_tell e = false)
       (trace (handle_crash example_err "deploy new" a st).2)
  /\ (tool_version gcloud_argv
        (example_ambient tools_failing example_template never) st).1
     = Ok not_installed.
Proof. vm_compute. repeat split; repeat constructor. Qed.






(** C4.  The gate reads lines until one whose trimmed, lowercased form
    is empty, [y] or [n]; every other line brings one more prompt.  The
    decision is to submit exactly when that form is [y]; an empty answer
    decides not to submit.  In particular the empty line, [N] and [n]
    decide not to submit, [y] and [Y] decide to submit, and [maybe]
    followed by [y] prompts twice and decides to submit. *)
Theorem interactive_gate_decides (a : Ambient) (st : State)
    (pre : list string) (line : string) (rest : list string) :
  Forall (fun l => normalised l ∉ valid_answers) pre ->
  normalised line ∈ valid_answers ->
  console_in st = pre ++ line :: rest ->
  gate a st
  = (Ok (normalised line),
     {| fds := fds st; fs := fs st; console_in := rest;
        trace := trace st
                   ++ repeat (EvAsk ask_prompt) (S (List.length pre)) |})
  /\ prompts (console_in st) = S (List.length pre)
  /\ decision (console_in st) = Some (bool_decide (normalised line = "y"))
  /\ (normalised line = EmptyString -> decision (console_in st) = Some false)
  /\ decision [EmptyString] = Some false
  /\ decision ["N"] = Some false
  /\ decision ["n"] = Some false
  /\ decision ["y"] = Some true
  /\ decision ["Y"] = Some true
  /\ decision ["maybe"; "y"] = Some true
  /\ prompts ["maybe"; "y"] = 2.
Proof.
  intros Hpre Hline Hin.
  assert (Hloop : gate_loop (console_in st) []
                  = (Ok (normalised line), rest,
                     repeat (EvAsk ask_prompt) (S (List.length pre)))).
  { rewrite Hin. apply gate_loop_reprompts; [|by apply gate_step_valid].
    eapply Forall_impl; [exact Hpre|]. intros l. apply gate_step_invalid. }
  assert (Hdec : decision (console_in st)
                 = Some (bool_decide (normalised line = "y"))).
  { unfold decision. rewrite Hloop. f_equal.
    unfold valid_answers in Hline.
    apply elem_of_cons in Hline as [->|Hline]; [done|].
    apply elem_of_cons in Hline as [->|Hline]; [done|].
    apply list_elem_of_singleton in Hline as ->. done. }
  split.
  { unfold gate. rewrite gate_loop_app, Hloop. reflexivity. }
  split.
  { unfold prompts. rewrite Hloop. simpl. by rewrite repeat_length. }
  split; [exact Hdec|].
  split.
  { intros He. rewrite Hdec, He. reflexivity. }
  repeat split; reflexivity.
Qed.

(** C4 at work on the input [maybe], [ Y ], [later]. *)
Lemma interactive_gate_decides_witness :
  decision ["maybe"; " Y "; "later"] = Some true
  /\ prompts ["maybe"; " Y "; "later"] = 2.
Proof.
  pose proof (interactive_gate_decides
                (example_ambient tools_present example_template never)
                (example_state ["maybe"; " Y "; "later"])
                ["maybe"] " Y " ["later"]) as H.
  destruct H as (_ & Hp & Hd & _).
  - constructor; [|constructor].
    apply (bool_decide_unpack _). vm_compute. exact I.
  - apply (bool_decide_unpack _). vm_compute. exact I.
  - reflexivity.
  - split; [exact Hd | exact Hp].
Defined.

Lemma gate_step_None line :
  gate_step line = None <-> normalised line ∉ valid_answers.
Proof.
  split; [|apply gate_step_invalid].
  intros Hnone Hin. apply gate_step_valid in Hin. congruence.
Qed.

(** The decision is to submit exactly when the first line that is a
    valid answer is a [y]. *)
Lemma decision_true_iff lines :
  decision lines = Some true
  <-> exists pre line rest,
        lines = pre ++ line :: rest
        /\ Forall (fun l => normalised l ∉ valid_answers) pre
        /\ normalised line = "y".
Proof.
  unfold decision. split.
  - destruct (gate_loop lines []) as [[[ans|e] rest] asks] eqn:Hloop;
      [|discriminate].
    intros [= Hy].
    apply gate_loop_shape in Hloop as (pre & Hpre & _ & line & -> & Hline).
    exists pre, line, rest. split; [done|]. split.
    + eapply Forall_impl; [exact Hpre|]. intros l. apply gate_step_None.
    + apply gate_step_Some in Hline as [Hans [Ha | [Ha | Ha]]];
        rewrite Ha in Hy, Hans; try discriminate.
      unfold normalised. by rewrite <- Hans.
  - intros (pre & line & rest & -> & Hpre & Hline).
    rewrite gate_loop_reprompts.
    + by rewrite Hline.
    + eapply Forall_impl; [exact Hpre|]. intros l. apply gate_step_None.
    + apply gate_step_valid. rewrite Hline. unfold valid_answers.
      rewrite !elem_of_cons. tauto.
Qed.

(** What the message says: that the command failed due to an internal
    error, first; and where the report file is, last. *)
Lemma crash_message_says command path :
  (exists tail,
      crash_message command path
      = "Your " +:+ PyStr.dquote +:+ command +:+ PyStr.dquote
          +:+ " failed due to an internal error." +:+ tail)
  /\ (exists head,
        crash_message command path
        = head +:+ "For more details, see: " +:+ path).
Proof.
  assert (Happ : forall s1 s2 s3, (s1 +:+ s2) +:+ s3 = s1 +:+ s2 +:+ s3).
  { induction s1 as [|c s1 IH]; intros s2 s3; [reflexivity|].
    change (String c ((s1 +:+ s2) +:+ s3) = String c (s1 +:+ s2 +:+ s3)).
    by rewrite IH. }
  unfold crash_message. split.
  - eexists. reflexivity.
  - eexists ("Your " +:+ PyStr.dquote +:+ command +:+ PyStr.dquote
             +:+ " failed due to an internal error."
             +:+ nl +:+ nl
             +:+ "You can report this error by filing a bug on Github. If you agree,"
             +:+ nl
             +:+ "a browser window will open and an Github issue will be" +:+ nl
             +:+ "pre-populated with the details of this crash." +:+ nl).
    rewrite !Happ. reflexivity.
Qed.

(** C5.  In every run of the handler the browser is opened only when
    the user's decision is to submit, and then as the last effect, after
    the message that names the command and the path of the report file
    was shown.  When the decision is not to submit, or the input ends
    without one, the browser is never opened.  The decision is to
    submit exactly when the first line the user enters that is a valid
    answer reads [y] once trimmed and lowercased.  The message shown
    begins by saying that the command failed due to an internal error
    and ends with the path of the report file, which is the path
    [mkstemp] returned and at which the report is on disk. *)
Theorem submitter_needs_consent err command a st :
  (exists evs,
    trace (handle_crash err command a st).2 = trace st ++ evs
    /\ match decision (console_in st) with
       | Some true =>
           no_browser evs
           \/ exists fd path before asks url,
                evs = EvMkstemp path fd :: before
                        ++ EvTell (crash_message command path) :: asks
                        ++ [EvBrowser url]
                /\ no_browser (before ++ asks)
                /\ is_Some (fs (handle_crash err command a st).2 !! path)
       | _ => no_browser evs
       end)
  /\ (decision (console_in st) = Some true
      <-> exists pre line rest,
            console_in st = pre ++ line :: rest
            /\ Forall (fun l => normalised l ∉ valid_answers) pre
            /\ normalised line = "y")
  /\ (forall path,
         (exists tail,
             crash_message command path
             = "Your " +:+ PyStr.dquote +:+ command +:+ PyStr.dquote
                 +:+ " failed due to an internal error." +:+ tail)
         /\ (exists head,
               crash_message command path
               = head +:+ "For more details, see: " +:+ path)).
Proof.
  split; [|split; [apply decision_true_iff | intros; apply crash_message_says]].
  rewrite handle_crash_run. unfold handle_crash_summary, decision.
  destruct (List.find _ _) as [n|].
  2:{ exists []. split; [by rewrite app_nil_r|].
      destruct (gate_loop _ _) as [[[ans|e] ?] ?];
        [destruct (String.eqb _ _)|]; try left; constructor. }
  set (path := mkstemp_path a report_prefix n).
  set (fd := lowest_free (fds st)).
  pose proof (body_events_no_browser a) as Hbe.
  assert (Hopen : no_browser (EvMkstemp path fd :: body_events a))
    by (by constructor).
  destruct (body_value a command) as [body|e].
  2:{ eexists. split; [reflexivity|].
      destruct (gate_loop _ _) as [[[ans|e'] ?] ?];
        [destruct (String.eqb _ _)|]; try left; exact Hopen. }
  destruct (write_failure a body) as [[|]|].
  { eexists. split; [reflexivity|].
    destruct (gate_loop _ _) as [[[ans|e'] ?] ?];
      [destruct (String.eqb _ _)|]; try left; exact Hopen. }
  { eexists. split; [reflexivity|].
    assert (Hq : no_browser
              (EvMkstemp path fd :: body_events a
                 ++ [EvWrite fd body; EvClose fd])).
    { unfold no_browser in *. rewrite Forall_cons, Forall_app.
      repeat split; try done. by repeat constructor. }
    destruct (gate_loop _ _) as [[[ans|e'] ?] ?];
      [destruct (String.eqb _ _)|]; try left; exact Hq. }
  destruct (gate_loop (console_in st) []) as [[gr rest] asks] eqn:Hloop.
  assert (Hasks : no_browser asks).
  { apply gate_asks in Hloop as [k ->]. apply repeat_ask_no_browser. }
  eexists. split; [reflexivity|].
  assert (Hquiet : no_browser
            ((body_events a ++ [EvWrite fd body; EvClose fd]) ++ asks)).
  { unfold no_browser in *. rewrite !Forall_app. repeat split; try done.
    by repeat constructor. }
  destruct gr as [ans|e]; unfold submit_events.
  - destruct (String.eqb _ _).
    + right.
      exists fd, path, (body_events a ++ [EvWrite fd body; EvClose fd]),
        asks, (issue_url a (_create_issue_title err command) body).
      split; [by rewrite <- !app_assoc|]. split; [exact Hquiet|].
      cbn [snd fs]. by rewrite lookup_insert_eq.
    + unfold no_browser in *. rewrite app_nil_r.
      rewrite <- app_assoc in Hquiet.
      rewrite !Forall_cons, !Forall_app in *. simpl in *.
      repeat split; try tauto. by repeat constructor.
  - unfold no_browser in *. rewrite app_nil_r.
    rewrite <- app_assoc in Hquiet.
    rewrite !Forall_cons, !Forall_app in *. simpl in *.
    repeat split; try tauto. by repeat constructor.
Qed.

(** C6.  The title is the exception's class name, a colon, the
    exception's message, [ during ], and the command between double
    quotes; for [ValueError], [bad config] and [deploy new] it is
    [ValueError:bad config during "deploy new"]. *)
Theorem issue_title_format :
  (forall err command,
      list_ascii_of_string (_create_issue_title err command)
      = list_ascii_of_string (type_name err) ++ [":"%char]
          ++ list_ascii_of_string (str_of err)
          ++ list_ascii_of_string " during " ++ [ascii_of_nat 34]
          ++ list_ascii_of_string command ++ [ascii_of_nat 34])
  /\ _create_issue_title
       {| type_name := "ValueError"; str_of := "bad config" |} "deploy new"
     = "ValueError:bad config during "
         +:+ String (ascii_of_nat 34) ("deploy new"
         +:+ String (ascii_of_nat 34) EmptyString).
Proof.
  split; [|reflexivity].
  intros err command. unfold _create_issue_title, PyStr.dquote.
  assert (Happ : forall s1 s2, list_ascii_of_string (s1 +:+ s2)
                 = list_ascii_of_string s1 ++ list_ascii_of_string s2).
  { induction s1 as [|c s1 IH]; intros s2; simpl; [done|]. by rewrite IH. }
  rewrite !Happ. simpl. reflexivity.
Qed.

(** C7.  Rendering is a function of the crash context and the
    diagnostic snapshot: two runs, even in different environments and
    process states, that agree on the snapshot, the traceback text, the
    parsed template, the command and the exception's class name and
    message give the same body and the same title, and these are the
    body and title of the specification's renderer.  A second call right
    after the first gives the same body, and the call leaves the
    descriptors, the files and the console input as they were. *)
Theorem rendering_is_deterministic command err1 err2 a1 st1 a2 st2 snap :
  collect a1 = Ok snap ->
  collect a2 = Ok snap ->
  traceback_format_exc a1 = traceback_format_exc a2 ->
  from_string a1 (_ISSUE_TEMPLATE a1) = from_string a2 (_ISSUE_TEMPLATE a2) ->
  type_name err1 = type_name err2 ->
  str_of err1 = str_of err2 ->
  let out1 := _create_issue_body command a1 st1 in
  let out2 := _create_issue_body command a2 st2 in
  out1.1 = out2.1
  /\ _create_issue_title err1 command = _create_issue_title err2 command
  /\ out1.1 = match from_string a1 (_ISSUE_TEMPLATE a1) with
              | None => Raise TemplateSyntaxError
              | Some t =>
                  report_body
                    (spec_render t (crash_context a1 err1 command) snap)
              end
  /\ _create_issue_title err1 command
     = report_title
         (spec_render [] (crash_context a1 err1 command) snap)
  /\ (_create_issue_body command a1 out1.2).1 = out1.1
  /\ fds out1.2 = fds st1 /\ fs out1.2 = fs st1
  /\ console_in out1.2 = console_in st1.
Proof.
  intros Hc1 Hc2 Htb Htpl Hty Hstr. cbv zeta.
  rewrite !body_run. cbn [fst snd fds fs console_in extend].
  unfold body_value. rewrite Hc1, Hc2, <- Htpl.
  split.
  { destruct (from_string a1 _); [|done].
    unfold spec_render, crash_context. cbn. by rewrite Htb. }
  split.
  { unfold _create_issue_title. by rewrite Hty, Hstr. }
  repeat split.
Qed.

(** C7 at work: the same environment and two different process states. *)
Lemma rendering_is_deterministic_witness :
  let a := example_ambient tools_present example_template never in
  (_create_issue_body "deploy new" a (example_state ["n"])).1
  = (_create_issue_body "deploy new" a (example_state ["y"; "n"])).1.
Proof.
  cbv zeta.
  assert (Hc : exists snap,
             collect (example_ambient tools_present example_template never)
             = Ok snap) by (vm_compute; eexists; reflexivity).
  destruct Hc as [snap Hc].
  exact (proj1 (rendering_is_deterministic "deploy new" example_err example_err
                  (example_ambient tools_present example_template never)
                  (example_state ["n"])
                  (example_ambient tools_present example_template never)
                  (example_state ["y"; "n"]) snap
                  Hc Hc eq_refl eq_refl eq_refl eq_refl)).
Defined.

(** C8.  [open_url] opens the null device on a descriptor that was
    free, makes descriptor 2 refer to it, and then calls the browser:
    when the browser is called descriptor 2 is the null device.  On
    return the extra descriptor is closed again, every descriptor other
    than 2 refers to what it referred to before, and neither the files
    on disk nor the console input have changed: the only change is in
    the descriptor table of the process. *)
Theorem open_url_redirects_stderr_only url a st :
  let f := lowest_free (fds st) in
  let redirected := (f <- open_devnull ;; dup2 f 2) a st in
  let out := open_url url a st in
  out.1 = Ok tt
  /\ fds st !! f = None
  /\ trace out.2
     = trace st ++ [EvOpen DevNull f; EvDup2 f 2; EvBrowser url; EvClose f]
  /\ redirected.1 = Ok tt
  /\ fds redirected.2 !! 2 = Some DevNull
  /\ out = try_finally (webbrowser_open url) (file_close f) a redirected.2
  /\ fds out.2 !! 2 = (if decide (f = 2) then None else Some DevNull)
  /\ delete 2 (fds out.2) = delete 2 (fds st)
  /\ fs out.2 = fs st
  /\ console_in out.2 = console_in st.
Proof.
  cbv zeta. pose proof (lowest_free_None (fds st)) as Hfree.
  set (f := lowest_free (fds st)) in *.
  unfold open_url, try_finally, bind, open_devnull, dup2, webbrowser_open,
    emit, file_close, log, set_fds.
  cbn [fds fs console_in trace fst snd].
  fold f. rewrite lookup_insert_eq.
  cbn [fds fs console_in trace fst snd].
  assert (Hopen : <[2 := DevNull]> (<[f := DevNull]> (fds st)) !! f
                  = Some DevNull).
  { rewrite lookup_insert. case_decide; [done|]. apply lookup_insert_eq. }
  rewrite Hopen. cbn [fds fs console_in trace fst snd].
  split; [done|]. split; [done|].
  split; [by rewrite <- !app_assoc|].
  split; [done|]. split; [apply lookup_insert_eq|]. split; [done|].
  split.
  { destruct (decide (f = 2)) as [Hf|Hf].
    - rewrite Hf. apply lookup_delete_eq.
    - rewrite lookup_delete_ne by done. apply lookup_insert_eq. }
  split; [|done].
  apply map_eq. intros i.
  destruct (decide (i = 2)) as [->|Hi2].
  { by rewrite !lookup_delete_eq. }
  rewrite !(lookup_delete_ne _ 2) by done.
  destruct (decide (i = f)) as [->|Hif].
  { by rewrite lookup_delete_eq, Hfree. }
  rewrite lookup_delete_ne by done.
  by rewrite !lookup_insert_ne by done.
Qed.

(** C9.  The report body does not depend on the exception handed to
    the handler.  For a command, an environment and a state there are one
    outcome, one final descriptor table, one final disk, and one sequence
    of effects, the same for every exception; only the title inside the
    issue URL varies with it.  What is written to the report file, and
    what is submitted, is the result of [_create_issue_body], which is
    not given the exception. *)
Theorem body_independent_of_exception command a st :
  exists (r : result unit) fds' fs' rest evs (submitted : option string),
    (forall err,
        handle_crash err command a st
        = (r, {| fds := fds'; fs := fs'; console_in := rest;
                 trace :=
                   trace st ++ evs
                     ++ match submitted with
                        | Some body =>
                            [EvBrowser
                               (issue_url a (_create_issue_title err command)
                                  body)]
                        | None => []
                        end |}))
    /\ (forall fd data,
           EvWrite fd data ∈ evs ->
           (_create_issue_body command a st).1 = Ok data)
    /\ (forall body,
           submitted = Some body ->
           (_create_issue_body command a st).1 = Ok body).
Proof.
  rewrite body_result.
  assert (Hbe : forall fd data, EvWrite fd data ∉ body_events a).
  { intros fd data. unfold body_events.
    repeat (destruct (tool_version_value _ _));
      rewrite ?elem_of_cons, ?elem_of_nil; intuition discriminate. }
  destruct (List.find
      (fun n => bool_decide (fs st !! mkstemp_path a report_prefix n = None))
      (candidate_names a)) as [n|] eqn:Hfind.
  2:{ exists (Raise FileExistsError), (fds st), (fs st), (console_in st), [], None.
      split; [|split; [intros ? ? H; by apply elem_of_nil in H | done]].
      intros err. rewrite handle_crash_run. unfold handle_crash_summary.
      rewrite Hfind, !app_nil_r. by destruct st. }
  set (path := mkstemp_path a report_prefix n).
  set (fd := lowest_free (fds st)).
  destruct (body_value a command) as [body|e] eqn:Hbody.
  2:{ exists (Raise e), (<[fd := RegularFile path]> (fds st)),
        (<[path := EmptyString]> (fs st)), (console_in st),
        (EvMkstemp path fd :: body_events a), None.
      split; [|split; [|done]].
      - intros err. rewrite handle_crash_run. unfold handle_crash_summary.
        rewrite Hfind, Hbody, !app_nil_r. reflexivity.
      - intros fd' data. rewrite elem_of_cons. intros [H|H]; [done|].
        by apply Hbe in H. }
  destruct (write_failure a body) as [[|]|] eqn:Hwf.
  { exists (Raise (write_exception a body)),
      (<[fd := RegularFile path]> (fds st)),
      (<[path := EmptyString]> (fs st)), (console_in st),
      (EvMkstemp path fd :: body_events a), None.
    split; [|split; [|done]].
    - intros err. rewrite handle_crash_run. unfold handle_crash_summary.
      rewrite Hfind, Hbody, Hwf, !app_nil_r. reflexivity.
    - intros fd' data. rewrite elem_of_cons. intros [H|H]; [done|].
      by apply Hbe in H. }
  { exists (Raise OSError), (fds st),
      (<[path := EmptyString]> (fs st)), (console_in st),
      (EvMkstemp path fd :: body_events a ++ [EvWrite fd body; EvClose fd]),
      None.
    split; [|split; [|done]].
    - intros err. rewrite handle_crash_run. unfold handle_crash_summary.
      rewrite Hfind, Hbody, Hwf, !app_nil_r. reflexivity.
    - intros fd' data.
      rewrite elem_of_cons, elem_of_app, !elem_of_cons, elem_of_nil.
      intros [H|[H|[H|[H|[]]]]]; try done.
      + by apply Hbe in H.
      + by injection H as -> ->. }
  destruct (gate_loop (console_in st) []) as [[gr rest] asks] eqn:Hloop.
  destruct (gate_asks _ _ _ _ Hloop) as [k Hk].
  exists (match gr with Ok _ => Ok tt | Raise e => Raise e end),
    (fds st), (<[path := body]> (fs st)), rest,
    (EvMkstemp path fd :: body_events a
       ++ [EvWrite fd body; EvClose fd; EvTell (crash_message command path)]
       ++ asks),
    (match gr with
     | Ok ans => if String.eqb (PyStr.lower ans) "y" then Some body else None
     | Raise _ => None
     end).
  split; [|split].
  - intros err. rewrite handle_crash_run. unfold handle_crash_summary.
    rewrite Hfind, Hbody, Hwf, Hloop. unfold submit_events.
    f_equal. f_equal. f_equal.
    destruct gr as [ans|e]; [destruct (String.eqb _ _)|];
      cbn [app]; rewrite <- ?app_assoc; cbn [app]; reflexivity.
  - intros fd' data. rewrite Hk.
    rewrite elem_of_cons, elem_of_app, elem_of_app, !elem_of_cons, elem_of_nil.
    intros [H|[H|[[H|[H|[H|[]]]]|H]]]; try done.
    + by apply Hbe in H.
    + by injection H as -> ->.
    + apply list_elem_of_In, repeat_spec in H. done.
  - intros body'. destruct gr as [ans|e]; [destruct (String.eqb _ _)|];
      intros [= <-]. reflexivity.
Qed.

(** C10.  Whenever the handler returns, the report file was created
    under a fresh path and the whole body was written to it and the file
    closed before the user was told or asked anything; on return the disk
    is the initial disk with that file added, holding the body, at the
    path that was shown to the user.  This holds whether or not the user
    agreed to submit; the handler deletes nothing. *)
Theorem report_file_persists err command a st :
  (handle_crash err command a st).1 = Ok tt ->
  exists fd path body asks tail,
    (_create_issue_body command a st).1 = Ok body
    /\ fs st !! path = None
    /\ fs (handle_crash err command a st).2 = <[path := body]> (fs st)
    /\ trace (handle_crash err command a st).2
       = trace st ++ EvMkstemp path fd :: body_events a
           ++ [EvWrite fd body; EvClose fd;
               EvTell (crash_message command path)]
           ++ asks ++ tail
    /\ no_console (body_events a)
    /\ only_asks asks /\ asks <> []
    /\ (tail = []
        \/ exists url, tail = [EvBrowser url]
                       /\ decision (console_in st) = Some true).
Proof.
  rewrite handle_crash_run, body_result. unfold handle_crash_summary, decision.
  destruct (List.find _ _) as [n|] eqn:Hfind; [|discriminate].
  set (path := mkstemp_path a report_prefix n).
  set (fd := lowest_free (fds st)).
  destruct (body_value a command) as [body|e]; [|discriminate].
  destruct (write_failure a body) as [[|]|]; [discriminate|discriminate|].
  destruct (gate_loop (console_in st) []) as [[gr rest] asks] eqn:Hloop.
  simpl. destruct gr as [ans|e]; [|discriminate]. intros _.
  exists fd, path, body, asks, (submit_events a err command body (Ok ans)).
  destruct (gate_only_asks _ _ _ _ Hloop) as [Hasks Hne].
  repeat split; try done.
  - apply List.find_some in Hfind as [_ H]. by apply bool_decide_eq_true in H.
  - apply body_events_no_console.
  - unfold submit_events. destruct (String.eqb _ _); [right|by left].
    by eexists.
Qed.

(** C10 at work: the user declines, and the report is on disk. *)
Lemma report_file_persists_witness :
  let a := example_ambient tools_present example_template never in
  let st := example_state ["n"] in
  let out := handle_crash example_err "deploy new" a st in
  out.1 = Ok tt
  /\ exists body,
       (_create_issue_body "deploy new" a st).1 = Ok body
       /\ fs out.2 !! "/tmp/django-deploy-bug-report-a1b2c3" = Some body.
Proof.
  cbv zeta.
  split; [vm_compute; reflexivity|].
  destruct (report_file_persists example_err "deploy new"
              (example_ambient tools_present example_template never)
              (example_state ["n"]))
    as (fd & path & body & asks & tail & Hbody & _ & Hfs & Htr & _).
  - vm_compute. reflexivity.
  - exists body. split; [exact Hbody|].
    rewrite Hfs.
    assert (Hpath : path = "/tmp/django-deploy-bug-report-a1b2c3").
    { revert Htr. vm_compute. intros [= <- _]. reflexivity. }
    rewrite Hpath. apply lookup_insert_eq.
Defined.

(** * Further properties of the modelled code *)

(** ** The crash handler *)

Lemma body_events_subprocess a :
  Forall (fun e => is_subprocess e = true) (body_events a).
Proof.
  unfold body_events.
  repeat (destruct (tool_version_value _ _)); repeat constructor.
Qed.

Lemma gate_loop_exhausted lines :
  Forall (fun l => gate_step l = None) lines ->
  gate_loop lines []
  = (Raise EOFError, [], repeat (EvAsk ask_prompt) (S (List.length lines))).
Proof.
  induction 1 as [|l lines Hl _ IH]; simpl; [reflexivity|].
  rewrite Hl, gate_loop_app, IH. reflexivity.
Qed.

Lemma write_failure_None a body :
  write_fails a body = false -> write_failure a body = None.
Proof. unfold write_failure. intros ->. by rewrite orb_true_r. Qed.

(** Where a failure of [_create_issue_body] comes from: a tool query,
    the parsing of the template, or its rendering. *)
Lemma body_value_Raise a command e :
  body_value a command = Raise e ->
  (exists argv, argv ∈ tool_argvs /\ tool_version_value a argv = Raise e)
  \/ (from_string a (_ISSUE_TEMPLATE a) = None /\ e = TemplateSyntaxError)
  \/ (exists t options,
        from_string a (_ISSUE_TEMPLATE a) = Some t
        /\ render t options = Raise e).
Proof.
  rewrite body_value_options. unfold collect, tool_argvs.
  destruct (tool_version_value a gcloud_argv) eqn:Hg.
  2:{ intros [= <-]. left. exists gcloud_argv.
      rewrite !elem_of_cons. auto. }
  destruct (tool_version_value a docker_argv) eqn:Hd.
  2:{ intros [= <-]. left. exists docker_argv.
      rewrite !elem_of_cons. auto. }
  destruct (tool_version_value a cloud_sql_proxy_argv) eqn:Hp.
  2:{ intros [= <-]. left. exists cloud_sql_proxy_argv.
      rewrite !elem_of_cons. auto. }
  cbn [snap_gcloud_version snap_docker_version snap_cloud_sql_proxy_version].
  destruct (from_string a _) as [t|].
  - intros H. right. right. by eexists _, _.
  - intros [= <-]. right. by left.
Qed.

(** X1.  Whatever happens in the handler, every file that was on disk
    before the call is still there with the same content: the report
    goes to a path that did not exist. *)
Theorem handle_crash_keeps_existing_files err command a st :
  fs st ⊆ fs (handle_crash err command a st).2.
Proof.
  rewrite handle_crash_run. unfold handle_crash_summary.
  destruct (List.find _ _) as [n|] eqn:Hfind; [|done].
  apply List.find_some in Hfind as [_ Hfresh].
  apply bool_decide_eq_true in Hfresh.
  destruct (body_value a command) as [body|e];
    [destruct (write_failure a body) as [[|]|];
     [| |destruct (gate_loop _ _) as [[gr rest] asks]]|];
    cbn [snd fs]; by apply insert_subseteq.
Qed.

(** X2.  The report file is created before the body is built.  When
    building the body fails (a tool query raises, the template does
    not parse, or rendering raises), the handler fails with that
    exception, the empty
    report file stays on disk, its descriptor stays open, no console
    input is read, and nothing but the tool queries has run. *)
Theorem body_failure_leaves_report_file_open err command a st fd path e :
  (mkstemp report_prefix a st).1 = Ok (fd, path) ->
  (_create_issue_body command a st).1 = Raise e ->
  let out := handle_crash err command a st in
  out.1 = Raise e
  /\ ((exists argv,
          argv ∈ tool_argvs /\ (tool_version argv a st).1 = Raise e)
      \/ (from_string a (_ISSUE_TEMPLATE a) = None
          /\ e = TemplateSyntaxError)
      \/ (exists t options,
            from_string a (_ISSUE_TEMPLATE a) = Some t
            /\ render t options = Raise e))
  /\ fds st !! fd = None
  /\ fds out.2 = <[fd := RegularFile path]> (fds st)
  /\ fs st !! path = None
  /\ fs out.2 = <[path := EmptyString]> (fs st)
  /\ console_in out.2 = console_in st
  /\ exists evs,
       trace out.2 = trace st ++ EvMkstemp path fd :: evs
       /\ Forall (fun e => is_subprocess e = true) evs.
Proof.
  intros Hmk Hbody. cbv zeta.
  apply mkstemp_Ok in Hmk as (n & Hfind & -> & -> & Hfresh).
  rewrite body_result in Hbody.
  rewrite handle_crash_run. unfold handle_crash_summary.
  rewrite Hfind, Hbody. cbn [fst snd fds fs console_in trace].
  repeat split; try done.
  - apply body_value_Raise in Hbody as [(argv & Hin & Hv)|H]; [left|by right].
    exists argv. by rewrite tool_version_run.
  - apply lowest_free_None.
  - eexists. split; [reflexivity|]. apply body_events_subprocess.
Qed.

(** X2 at work: [gcloud] is not on PATH. *)
Lemma body_failure_leaves_report_file_open_witness :
  let a := example_ambient gcloud_missing example_template never in
  let st := example_state ["y"] in
  let out := handle_crash example_err "deploy new" a st in
  out.1 = Raise FileNotFoundError
  /\ fds out.2 !! 3 = Some (RegularFile "/tmp/django-deploy-bug-report-a1b2c3")
  /\ fs out.2 !! "/tmp/django-deploy-bug-report-a1b2c3" = Some EmptyString.
Proof.
  cbv zeta.
  destruct (body_failure_leaves_report_file_open example_err "deploy new"
              (example_ambient gcloud_missing example_template never)
              (example_state ["y"]) 3 "/tmp/django-deploy-bug-report-a1b2c3"
              FileNotFoundError)
    as (Hr & _ & _ & Hfds & _ & Hfs & _).
  - vm_compute. reflexivity.
  - vm_compute. reflexivity.
  - split; [exact Hr|]. rewrite Hfds, Hfs.
    split; apply lookup_insert_eq.
Defined.

(** X3.  When the console input ends before any valid answer (also when
    it is empty), the handler fails with [EOFError] after prompting once
    per line and once more; the report is on disk, the descriptor is
    closed again, and the browser was not opened. *)
Theorem handle_crash_input_exhausted err command a st fd path body :
  (mkstemp report_prefix a st).1 = Ok (fd, path) ->
  (_create_issue_body command a st).1 = Ok body ->
  write_fails a body = false ->
  Forall (fun l => normalised l ∉ valid_answers) (console_in st) ->
  let out := handle_crash err command a st in
  out.1 = Raise EOFError
  /\ console_in out.2 = []
  /\ fds out.2 = fds st
  /\ fs out.2 = <[path := body]> (fs st)
  /\ trace out.2
     = trace st ++ EvMkstemp path fd :: body_events a
         ++ [EvWrite fd body; EvClose fd; EvTell (crash_message command path)]
         ++ repeat (EvAsk ask_prompt) (S (List.length (console_in st))).
Proof.
  intros Hmk Hbody Hwf Hin. cbv zeta. apply write_failure_None in Hwf.
  apply mkstemp_Ok in Hmk as (n & Hfind & -> & -> & Hfresh).
  rewrite body_result in Hbody.
  rewrite handle_crash_run. unfold handle_crash_summary.
  rewrite Hfind, Hbody, Hwf, gate_loop_exhausted.
  2:{ eapply Forall_impl; [exact Hin|]. intros l. apply gate_step_invalid. }
  cbn [fst snd fds fs console_in trace submit_events].
  by rewrite app_nil_r.
Qed.

(** X3 at work: two lines, neither a valid answer. *)
Lemma handle_crash_input_exhausted_witness :
  let a := example_ambient tools_present example_template never in
  let out := handle_crash example_err "deploy new" a
               (example_state ["maybe"; "later"]) in
  out.1 = Raise EOFError /\ console_in out.2 = [].
Proof.
  cbv zeta.
  assert (Hb : exists body,
             (_create_issue_body "deploy new"
                (example_ambient tools_present example_template never)
                (example_state ["maybe"; "later"])).1 = Ok body).
  { vm_compute. eexists. reflexivity. }
  destruct Hb as [body Hb].
  destruct (handle_crash_input_exhausted example_err "deploy new"
              (example_ambient tools_present example_template never)
              (example_state ["maybe"; "later"]) 3
              "/tmp/django-deploy-bug-report-a1b2c3" body)
    as (Hr & Hc & _).
  - vm_compute. reflexivity.
  - exact Hb.
  - reflexivity.
  - repeat constructor; apply (bool_decide_unpack _); vm_compute; exact I.
  - split; assumption.
Defined.

(** X4.  With a report that can be written and an input that holds a
    valid answer, the handler returns: the descriptor table is as before
    the call, the lines after the answer are left unread, and when the
    answer is [y] the browser is opened, once and last, on the issue URL
    built from the title and from the very body that is in the report
    file. *)
Theorem handle_crash_completes err command a st fd path body pre line rest :
  (mkstemp report_prefix a st).1 = Ok (fd, path) ->
  (_create_issue_body command a st).1 = Ok body ->
  write_fails a body = false ->
  console_in st = pre ++ line :: rest ->
  Forall (fun l => normalised l ∉ valid_answers) pre ->
  normalised line ∈ valid_answers ->
  let out := handle_crash err command a st in
  out.1 = Ok tt
  /\ console_in out.2 = rest
  /\ fds out.2 = fds st
  /\ fs out.2 = <[path := body]> (fs st)
  /\ trace out.2
     = trace st ++ EvMkstemp path fd :: body_events a
         ++ [EvWrite fd body; EvClose fd; EvTell (crash_message command path)]
         ++ repeat (EvAsk ask_prompt) (S (List.length pre))
         ++ (if bool_decide (normalised line = "y")
             then [EvBrowser
                     (issue_url a (_create_issue_title err command) body)]
             else []).
Proof.
  intros Hmk Hbody Hwf Hin Hpre Hline. cbv zeta.
  apply write_failure_None in Hwf.
  apply mkstemp_Ok in Hmk as (n & Hfind & -> & -> & Hfresh).
  rewrite body_result in Hbody.
  rewrite handle_crash_run. unfold handle_crash_summary.
  rewrite Hfind, Hbody, Hwf, Hin, gate_loop_reprompts.
  2:{ eapply Forall_impl; [exact Hpre|]. intros l. apply gate_step_invalid. }
  2:{ by apply gate_step_valid. }
  cbn [fst snd fds fs console_in trace submit_events].
  repeat split.
  do 6 f_equal.
  unfold valid_answers in Hline.
  rewrite !elem_of_cons, elem_of_nil in Hline.
  destruct Hline as [->|[->|[->|[]]]]; reflexivity.
Qed.

(** X4 at work on the input [maybe], [ Y ], [later]. *)
Lemma handle_crash_completes_witness :
  let a := example_ambient tools_present example_template never in
  let out := handle_crash example_err "deploy new" a
               (example_state ["maybe"; " Y "; "later"]) in
  out.1 = Ok tt /\ console_in out.2 = ["later"].
Proof.
  cbv zeta.
  assert (Hb : exists body,
             (_create_issue_body "deploy new"
                (example_ambient tools_present example_template never)
                (example_state ["maybe"; " Y "; "later"])).1 = Ok body).
  { vm_compute. eexists. reflexivity. }
  destruct Hb as [body Hb].
  destruct (handle_crash_completes example_err "deploy new"
              (example_ambient tools_present example_template never)
              (example_state ["maybe"; " Y "; "later"]) 3
              "/tmp/django-deploy-bug-report-a1b2c3" body
              ["maybe"] " Y " ["later"])
    as (Hr & Hc & _).
  - vm_compute. reflexivity.
  - exact Hb.
  - reflexivity.
  - reflexivity.
  - repeat constructor; apply (bool_decide_unpack _); vm_compute; exact I.
  - apply (bool_decide_unpack _). vm_compute. exact I.
  - split; assumption.
Defined.

(** ** Strings, the gate and the tool fields *)

Lemma rstrip_all_space ws : all_space ws = true -> PyStr.rstrip ws = EmptyString.
Proof.
  induction ws as [|c ws IH]; simpl; [done|].
  intros [Hc Hws]%andb_prop. by rewrite IH, Hc.
Qed.

Lemma lstrip_all_space ws : all_space ws = true -> PyStr.lstrip ws = EmptyString.
Proof.
  induction ws as [|c ws IH]; simpl; [done|].
  intros [Hc Hws]%andb_prop. by rewrite Hc, IH.
Qed.

Lemma rstrip_app_space s ws :
  all_space ws = true -> PyStr.rstrip (s +:+ ws) = PyStr.rstrip s.
Proof.
  intros Hws. induction s as [|c s IH]; simpl.
  - by apply rstrip_all_space.
  - by rewrite IH.
Qed.

Lemma lstrip_space_app ws s :
  all_space ws = true -> PyStr.lstrip (ws +:+ s) = PyStr.lstrip s.
Proof.
  induction ws as [|c ws IH]; simpl; [done|].
  intros [Hc Hws]%andb_prop. rewrite Hc. by apply IH.
Qed.

Lemma strip_app_space s ws :
  all_space ws = true -> PyStr.strip (s +:+ ws) = PyStr.strip s.
Proof.
  intros Hws. unfold PyStr.strip. induction s as [|c s IH]; simpl.
  - by rewrite lstrip_all_space.
  - destruct (PyStr.isspace c); [exact IH|].
    by apply (rstrip_app_space (String c s)).
Qed.

Lemma strip_padding ws1 s ws2 :
  all_space ws1 = true -> all_space ws2 = true ->
  PyStr.strip (ws1 +:+ s +:+ ws2) = PyStr.strip s.
Proof.
  intros H1 H2. unfold PyStr.strip at 1.
  rewrite lstrip_space_app by done.
  by apply strip_app_space.
Qed.

Lemma rstrip_idemp s : PyStr.rstrip (PyStr.rstrip s) = PyStr.rstrip s.
Proof.
  induction s as [|c s IH]; simpl; [done|].
  destruct (PyStr.rstrip s) as [|c' r] eqn:Hr.
  - destruct (PyStr.isspace c) eqn:Hc; simpl; [done|]. by rewrite Hc.
  - change (PyStr.rstrip (String c (String c' r)))
      with (match PyStr.rstrip (String c' r) with
            | EmptyString =>
                if PyStr.isspace c then EmptyString else String c EmptyString
            | r0 => String c r0
            end).
    by rewrite IH.
Qed.

Lemma rstrip_split s :
  exists ws, all_space ws = true /\ s = PyStr.rstrip s +:+ ws.
Proof.
  induction s as [|c s (ws & Hws & Hs)]; simpl.
  - by exists EmptyString.
  - destruct (PyStr.rstrip s) as [|c' r] eqn:Hr.
    + destruct (PyStr.isspace c) eqn:Hc.
      * exists (String c ws). simpl. rewrite Hc, Hws. split; [done|].
        by rewrite Hs at 1.
      * exists ws. split; [done|]. simpl. by rewrite Hs at 1.
    + exists ws. split; [done|]. simpl. by rewrite Hs at 1.
Qed.

Lemma isspace_lower_char c :
  PyStr.isspace (PyStr.lower_char c) = PyStr.isspace c.
Proof. destruct c as [[] [] [] [] [] [] [] []]; reflexivity. Qed.

Lemma lower_char_idemp c :
  PyStr.lower_char (PyStr.lower_char c) = PyStr.lower_char c.
Proof. destruct c as [[] [] [] [] [] [] [] []]; reflexivity. Qed.

Lemma lower_lstrip s :
  PyStr.lower (PyStr.lstrip s) = PyStr.lstrip (PyStr.lower s).
Proof.
  induction s as [|c s IH]; simpl; [done|].
  rewrite isspace_lower_char. by destruct (PyStr.isspace c).
Qed.

Lemma lower_rstrip s :
  PyStr.lower (PyStr.rstrip s) = PyStr.rstrip (PyStr.lower s).
Proof.
  induction s as [|c s IH]; simpl; [done|].
  rewrite <- IH, isspace_lower_char.
  destruct (PyStr.rstrip s); simpl; [|done].
  by destruct (PyStr.isspace c).
Qed.

Lemma normalised_lower line :
  normalised line = PyStr.strip (PyStr.lower line).
Proof.
  unfold normalised, PyStr.strip. by rewrite lower_rstrip, lower_lstrip.
Qed.

Lemma gate_step_normalised l1 l2 :
  normalised l1 = normalised l2 -> gate_step l1 = gate_step l2.
Proof. unfold gate_step, normalised. by intros ->. Qed.

(** X5.  Whitespace around an answer does not change how the gate reads
    it, and a line of nothing but whitespace is the default answer: do
    not submit. *)
Theorem gate_ignores_surrounding_whitespace ws1 line ws2 :
  all_space ws1 = true ->
  all_space ws2 = true ->
  gate_step (ws1 +:+ line +:+ ws2) = gate_step line
  /\ gate_step (ws1 +:+ ws2) = Some EmptyString
  /\ decision [ws1 +:+ ws2] = Some false.
Proof.
  intros H1 H2.
  assert (Hblank : gate_step (ws1 +:+ ws2) = Some EmptyString).
  { unfold gate_step.
    replace (ws1 +:+ ws2) with (ws1 +:+ EmptyString +:+ ws2) by done.
    by rewrite strip_padding. }
  split; [|split; [exact Hblank|]].
  - apply gate_step_normalised. unfold normalised.
    by rewrite strip_padding.
  - unfold decision. cbn [gate_loop]. by rewrite Hblank.
Qed.

(** X5 at work. *)
Lemma gate_ignores_surrounding_whitespace_witness :
  gate_step "  y  " = gate_step "y"
  /\ decision ["    "] = Some false.
Proof.
  destruct (gate_ignores_surrounding_whitespace "  " "y" "  " eq_refl eq_refl)
    as (H1 & _ & H3).
  split; [exact H1 | exact H3].
Defined.

(** X6.  Two lines that differ only in letter case are read alike by
    the gate, and the answer the loop leaves is already in lower case,
    so the [lower()] of the final test changes nothing. *)
Theorem gate_ignores_letter_case l1 l2 ans :
  PyStr.lower l1 = PyStr.lower l2 ->
  gate_step l1 = gate_step l2
  /\ decision [l1] = decision [l2]
  /\ (gate_step l1 = Some ans -> PyStr.lower ans = ans).
Proof.
  intros Hl.
  assert (Hs : gate_step l1 = gate_step l2).
  { apply gate_step_normalised. by rewrite !normalised_lower, Hl. }
  split; [exact Hs|]. split.
  - unfold decision. cbn [gate_loop]. by rewrite Hs.
  - intros [_ [-> | [-> | ->]]]%gate_step_Some; reflexivity.
Qed.

(** X6 at work. *)
Lemma gate_ignores_letter_case_witness :
  gate_step "Y" = gate_step "y" /\ decision ["N"] = decision ["n"].
Proof.
  split.
  - exact (proj1 (gate_ignores_letter_case "Y" "y" "y" eq_refl)).
  - exact (proj1 (proj2 (gate_ignores_letter_case "N" "n" "n" eq_refl))).
Defined.

Lemma universal_newlines_all_space ws :
  all_space ws = true -> all_space (universal_newlines ws) = true.
Proof.
  assert (H : forall n s,
             String.length s <= n ->
             all_space s = true -> all_space (universal_newlines s) = true).
  { induction n as [|n IH]; intros [|c s] Hlen; try done;
      cbn [String.length] in Hlen; [lia|].
    cbn [all_space universal_newlines]. intros [Hc Hws]%andb_prop.
    destruct (nat_of_ascii c =? 13)%nat.
    - destruct s as [|c2 ws2]; [reflexivity|].
      cbn [all_space String.length] in Hws, Hlen.
      apply andb_prop in Hws as [Hc2 Hws2].
      destruct (nat_of_ascii c2 =? 10)%nat; cbn [all_space].
      + apply IH; [lia | done].
      + apply IH; [cbn [String.length]; lia|].
        cbn [all_space]. by rewrite Hc2, Hws2.
    - cbn [all_space]. rewrite Hc. apply IH; [lia | done]. }
  intros Hws. by apply (H (String.length ws)).
Qed.

Lemma tool_version_value_field a argv v :
  tool_version_value a argv = Ok v ->
  exists code out, run a argv = Exited code out /\ v = version_field code out.
Proof.
  unfold tool_version_value, version_field.
  destruct (run a argv) as [[|code] out| | |]; intros [= <-]; eauto.
Qed.

(** X7.  A tool query that does not raise has run its command to the
    exit.  For exit status zero it gives the command's output as text
    mode delivers it (CR LF and CR turned into LF) without its trailing
    whitespace, and nothing else is removed; for another status it
    gives the fallback string.  In particular a command that exits with
    status zero and prints nothing but whitespace gives the empty
    string, not the fallback string. *)
Theorem tool_field_is_trimmed_output argv a st v :
  (tool_version argv a st).1 = Ok v ->
  PyStr.rstrip v = v
  /\ (exists code out, run a argv = Exited code out)
  /\ (forall out,
         run a argv = Exited 0 out ->
         (exists ws,
             all_space ws = true /\ universal_newlines out = v +:+ ws)
         /\ (all_space out = true -> v = EmptyString))
  /\ (forall code out, run a argv = Exited (S code) out -> v = not_installed).
Proof.
  rewrite tool_version_run. cbn [fst].
  unfold tool_version_value.
  destruct (run a argv) as [[|code] out| | |]; intros [= <-].
  - split; [apply rstrip_idemp|]. split; [by eauto|]. split.
    + intros out' [= <-]. split; [apply rstrip_split|].
      intros Hout. by apply rstrip_all_space, universal_newlines_all_space.
    + intros ? ? [=].
  - split; [reflexivity|]. split; [by eauto|]. split.
    + intros ? [=].
    + done.
Qed.

(** X7 at work on the output of [docker --version]. *)
Lemma tool_field_is_trimmed_output_witness :
  exists ws,
    all_space ws = true
    /\ universal_newlines ("Docker version 18.09.1" +:+ nl)
       = "Docker version 18.09.1" +:+ ws.
Proof.
  assert (H : (tool_version docker_argv
                 (example_ambient tools_present example_template never)
                 (example_state [])).1 = Ok "Docker version 18.09.1")
    by (vm_compute; reflexivity).
  destruct (tool_field_is_trimmed_output _ _ _ _ H) as (_ & _ & Hout & _).
  exact (proj1 (Hout _ eq_refl)).
Defined.


(** X9.  When the three commands run to their exit, each version field
    of the report depends on the outcome of its own command only: a
    command that exits non-zero puts the fallback string in its own
    field and leaves the other fields and the rendering alone. *)
Theorem nonzero_exit_costs_only_its_own_field command a st
    c1 o1 c2 o2 c3 o3 :
  run a gcloud_argv = Exited c1 o1 ->
  run a docker_argv = Exited c2 o2 ->
  run a cloud_sql_proxy_argv = Exited c3 o3 ->
  (_create_issue_body command a st).1
  = match from_string a (_ISSUE_TEMPLATE a) with
    | None => Raise TemplateSyntaxError
    | Some t =>
        render t
          (issue_options a command (version_field c1 o1)
             (version_field c2 o2) (version_field c3 o3))
    end.
Proof.
  intros H1 H2 H3.
  rewrite body_result, body_value_options. unfold collect.
  assert (Hv : forall argv c o,
             run a argv = Exited c o ->
             tool_version_value a argv = Ok (version_field c o)).
  { intros argv c o Hrun. unfold tool_version_value. rewrite Hrun.
    by destruct c. }
  by rewrite (Hv _ _ _ H1), (Hv _ _ _ H2), (Hv _ _ _ H3).
Qed.

(** X9 at work: all three commands exit with status 1. *)
Lemma nonzero_exit_costs_only_its_own_field_witness :
  (_create_issue_body "deploy new"
     (example_ambient tools_failing "{{ gcloud_version }}" never)
     (example_state [])).1 = Ok not_installed.
Proof.
  rewrite (nonzero_exit_costs_only_its_own_field "deploy new"
             (example_ambient tools_failing "{{ gcloud_version }}" never)
             (example_state []) 1 EmptyString 1 EmptyString 1 EmptyString
             eq_refl eq_refl eq_refl).
  vm_compute. reflexivity.
Defined.

Lemma replace_char_length old new s :
  String.length (PyStr.replace_char old new s) = String.length s.
Proof. induction s as [|c s IH]; simpl; [done|]. by rewrite IH. Qed.

Lemma replace_char_gone old new s :
  old <> new -> old ∉ list_ascii_of_string (PyStr.replace_char old new s).
Proof.
  intros Hne. induction s as [|c s IH]; simpl.
  - apply not_elem_of_nil.
  - rewrite not_elem_of_cons. split; [|exact IH].
    destruct (Ascii.eqb_spec c old); congruence.
Qed.

(** X10.  The interpreter version handed to the template contains no
    newline and is as long as [sys.version]; a version without newlines
    is handed over unchanged. *)
Theorem python_version_is_one_line a command g d p :
  exists v,
    (issue_options a command g d p) !! "python_version" = Some v
    /\ (PyStr.newline ∉ list_ascii_of_string v)
    /\ String.length v = String.length (sys_version a)
    /\ (PyStr.newline ∉ list_ascii_of_string (sys_version a) ->
        v = sys_version a).
Proof.
  exists (PyStr.replace_char PyStr.newline PyStr.space (sys_version a)).
  split; [vm_compute; reflexivity|].
  split; [by apply replace_char_gone|].
  split; [apply replace_char_length|].
  generalize (sys_version a). intros s.
  induction s as [|c s IH]; simpl; [done|].
  rewrite not_elem_of_cons. intros [Hc Hs].
  rewrite IH by done.
  destruct (Ascii.eqb_spec c PyStr.newline); congruence.
Qed.

(** ** [open_url] *)

Lemma find_seq_first (f : nat -> bool) s n i :
  List.find f (seq s n) = Some i ->
  forall j, s <= j < i -> f j = false.
Proof.
  revert s. induction n as [|n IH]; intros s; simpl; [done|].
  destruct (f s) eqn:Hs.
  - intros [= <-] j Hj. lia.
  - intros Hfind j Hj. destruct (decide (j = s)) as [->|Hne]; [done|].
    apply (IH (S s) Hfind). lia.
Qed.

Lemma lowest_free_least (t : gmap nat fd_target) i :
  i < lowest_free t -> is_Some (t !! i).
Proof.
  unfold lowest_free. intros Hi.
  assert (Hfalse : bool_decide (t !! i = None) = false).
  { destruct (List.find _ _) as [k|] eqn:Hfind; simpl in Hi.
    - apply (find_seq_first _ _ _ _ Hfind). lia.
    - apply (List.find_none _ _ Hfind). apply in_seq. lia. }
  apply bool_decide_eq_false in Hfalse.
  destruct (t !! i); [by eexists | done].
Qed.

Lemma lowest_free_unique (t : gmap nat fd_target) i :
  t !! i = None -> (forall j, j < i -> is_Some (t !! j)) -> lowest_free t = i.
Proof.
  intros Hi Hlow.
  pose proof (lowest_free_None t) as Hf.
  destruct (Nat.lt_trichotomy (lowest_free t) i) as [Hlt|[Heq|Hgt]]; [|done|].
  - apply Hlow in Hlt as [x Hx]. congruence.
  - apply lowest_free_least in Hgt as [x Hx]. congruence.
Qed.

Lemma open_url_fds url a st :
  fds (open_url url a st).2
  = if decide (lowest_free (fds st) = 2) then fds st
    else <[2 := DevNull]> (fds st).
Proof.
  pose proof (lowest_free_None (fds st)) as Hfree.
  set (f := lowest_free (fds st)) in *.
  unfold open_url, try_finally, bind, open_devnull, dup2, webbrowser_open,
    emit, file_close, log, set_fds.
  cbn [fds fs console_in trace fst snd].
  fold f. rewrite lookup_insert_eq.
  cbn [fds fs console_in trace fst snd].
  assert (Hopen : <[2 := DevNull]> (<[f := DevNull]> (fds st)) !! f
                  = Some DevNull).
  { rewrite lookup_insert. case_decide; [done|]. apply lookup_insert_eq. }
  rewrite Hopen. cbn [fds fs console_in trace fst snd].
  destruct (decide (f = 2)) as [Hf|Hf].
  - rewrite Hf in *. rewrite insert_insert_eq, delete_insert_eq.
    by apply delete_id.
  - rewrite insert_insert_ne by done.
    rewrite delete_insert_eq, delete_insert_ne by done.
    by rewrite delete_id.
Qed.

(** X11.  Calling [open_url] a second time leaves the descriptor table
    of the process as the first call left it. *)
Theorem open_url_twice_is_once_on_descriptors url1 url2 a st :
  let once := open_url url1 a st in
  let twice := open_url url2 a once.2 in
  fds twice.2 = fds once.2.
Proof.
  cbv zeta.
  rewrite (open_url_fds url2), (open_url_fds url1).
  destruct (decide (lowest_free (fds st) = 2)) as [Hf|Hf].
  - by rewrite decide_True.
  - case_decide; [done|]. by rewrite insert_insert_eq.
Qed.

(** X12.  When descriptors 0 and 1 are open and descriptor 2 is closed,
    the null device is opened on descriptor 2 itself: the browser is
    called with descriptor 2 on the null device, and leaving the [with]
    block closes it, so the descriptor table is afterwards as it was
    before the call. *)
Theorem open_url_with_stderr_closed url a st :
  is_Some (fds st !! 0) ->
  is_Some (fds st !! 1) ->
  fds st !! 2 = None ->
  fds ((f <- open_devnull ;; dup2 f 2) a st).2 !! 2 = Some DevNull
  /\ open_url url a st
     = (Ok tt,
        {| fds := fds st; fs := fs st; console_in := console_in st;
           trace := trace st ++ [EvOpen DevNull 2; EvDup2 2 2; EvBrowser url;
                                 EvClose 2] |}).
Proof.
  intros H0 H1 H2.
  assert (Hf : lowest_free (fds st) = 2).
  { apply lowest_free_unique; [done|].
    intros j Hj. destruct j as [|[|j]]; [done|done|lia]. }
  unfold open_url, try_finally, bind, open_devnull, dup2, webbrowser_open,
    emit, file_close, log, set_fds.
  cbn [fds fs console_in trace fst snd].
  rewrite Hf, !lookup_insert_eq. cbn [fds fs console_in trace fst snd].
  rewrite !lookup_insert_eq. cbn [fds fs console_in trace fst snd].
  split; [done|].
  rewrite insert_insert_eq, delete_insert_eq, delete_id by done.
  by rewrite <- !app_assoc.
Qed.

(** X12 at work. *)
Lemma open_url_with_stderr_closed_witness :
  let st := {| fds := <[0 := Tty]> (<[1 := Tty]> ∅); fs := ∅;
               console_in := []; trace := [] |} in
  fds (open_url "https://example.org"
         (example_ambient tools_present example_template never) st).2
  = fds st.
Proof.
  cbv zeta.
  destruct (open_url_with_stderr_closed "https://example.org"
              (example_ambient tools_present example_template never)
              {| fds := <[0 := Tty]> (<[1 := Tty]> ∅); fs := ∅;
                 console_in := []; trace := [] |}) as [_ H].
  - by eexists.
  - by eexists.
  - reflexivity.
  - rewrite H. reflexivity.
Defined.

(** ** The end-to-end test's readiness check *)

Lemma splitlines_from_no_linebreak cur s :
  no_linebreak s = true -> List.length (splitlines_from cur s) <= 1.
Proof.
  revert cur. induction s as [|c s IH]; intros cur; simpl.
  - intros _. destruct (PyStr.is_empty cur); simpl; lia.
  - intros [Hc Hs]%andb_prop. apply negb_true_iff in Hc. rewrite Hc.
    by apply IH.
Qed.

Lemma no_linebreak_app s1 s2 :
  no_linebreak (s1 +:+ s2) = no_linebreak s1 && no_linebreak s2.
Proof.
  induction s1 as [|c s1 IH]; simpl; [done|].
  by rewrite IH, andb_assoc.
Qed.

Lemma rstrip_no_linebreak s :
  no_linebreak s = true -> no_linebreak (PyStr.rstrip s) = true.
Proof.
  destruct (rstrip_split s) as (ws & _ & Hs). intros H.
  rewrite Hs, no_linebreak_app in H. by apply andb_prop in H as [H _].
Qed.

Lemma universal_newlines_no_linebreak line s :
  no_linebreak line = true ->
  universal_newlines (line +:+ s) = line +:+ universal_newlines s.
Proof.
  induction line as [|c line IH]; [done|].
  cbn [no_linebreak]. intros [Hc Hline]%andb_prop.
  change (String c line +:+ s) with (String c (line +:+ s)).
  change (String c line +:+ universal_newlines s)
    with (String c (line +:+ universal_newlines s)).
  cbn [universal_newlines].
  destruct (nat_of_ascii c =? 13)%nat eqn:Hcr.
  - apply Nat.eqb_eq in Hcr. unfold is_linebreak in Hc. rewrite Hcr in Hc.
    discriminate.
  - by rewrite IH.
Qed.

(** X13.  One try of [_wait_for_appengine_update_ready] answers [False]
    whenever [gcloud] lists a single line, whatever that line says and
    without converting it to a number: a service whose only version
    has all the traffic is not reported as ready. *)
Theorem single_version_line_is_never_ready float_is_one project_id a st
    line ws :
  run a (versions_list_argv project_id) = Exited 0 (line +:+ ws) ->
  no_linebreak line = true ->
  all_space ws = true ->
  _wait_for_appengine_update_ready float_is_one project_id a st
  = (Returns false, log (EvSubprocess (versions_list_argv project_id)) st).
Proof.
  intros Hrun Hline Hws.
  unfold _wait_for_appengine_update_ready, check_output.
  rewrite Hrun, universal_newlines_no_linebreak by done.
  rewrite rstrip_app_space by (by apply universal_newlines_all_space).
  pose proof (splitlines_from_no_linebreak EmptyString _
                (rstrip_no_linebreak _ Hline)) as Hlen.
  unfold splitlines.
  apply Nat.leb_le in Hlen. by rewrite Hlen.
Qed.

(** X13 at work: the only version listed has traffic split [1.00]. *)
Lemma single_version_line_is_never_ready_witness :
  let a := example_ambient (fun _ => Exited 0 ("1.00" +:+ nl))
             example_template never in
  (_wait_for_appengine_update_ready (fun _ => Some true) "my-project" a
     (example_state [])).1 = Returns false.
Proof.
  cbv zeta.
  rewrite (single_version_line_is_never_ready (fun _ => Some true)
             "my-project"
             (example_ambient (fun _ => Exited 0 ("1.00" +:+ nl))
                example_template never)
             (example_state []) "1.00" nl eq_refl eq_refl eq_refl).
  reflexivity.
Defined.
